(** * examples/gp_regression_example.py: the data module

    A shallow embedding of [VectorDataset] and [RandomDataModule] and the
    properties of the train/validation/test split they implement.

    Conventions of the embedding:
    - a 2-D tensor is the list of its rows, a row the list of its scalars;
      the scalars are only moved around, never computed with, so their type
      is a parameter;
    - a Python method is a computation in the exception monad [result];
    - [torch.randperm] reads and advances the global generator: the generator
      state is threaded explicitly, and seeding is choosing that state;
    - [train_pct * samples] is computed over the rationals; [F64] replays the
      same products in IEEE binary64 and the two are compared on a range of
      sample counts. *)

From Stdlib Require Import String List ZArith QArith Qround Lia Bool Permutation.
From Stdlib Require Import PrimFloat FloatOps SpecFloat Uint63.
Import ListNotations.

Set Implicit Arguments.

(** ** Exceptions *)

Inductive exn : Type :=
| TypeError    (* len(None), None[idx] *)
| IndexError   (* index out of range *)
| ValueError.  (* an argument the callee rejects *)

Inductive result (T : Type) : Type :=
| Ok (x : T)
| Raise (e : exn).

Arguments Ok {T} x.
Arguments Raise {T} e.

Definition bind {T U : Type} (c : result T) (k : T -> result U) : result U :=
  match c with
  | Ok x => k x
  | Raise e => Raise e
  end.

Notation "x <- c ;; k" := (bind c (fun x => k))
  (at level 61, c at next level, right associativity).
Notation "' pat <- c ;; k" := (bind c (fun x => match x with pat => k end))
  (at level 61, pat pattern, c at next level, right associativity).

(** ** Tensors and Python indexing *)

Definition Tensor (A : Type) : Type := list (list A).

Section Indexing.
Context {X : Type}.

(** Clamp a slice bound the way Python does for a sequence of [len] items:
    a negative bound counts from the end. *)
Definition slice_bound (len i : Z) : Z :=
  if (i <? 0)%Z then Z.max 0 (i + len) else Z.min i len.

(** [l[start:stop]]; [None] is the omitted bound. *)
Definition py_slice (start stop : option Z) (l : list X) : list X :=
  let len := Z.of_nat (length l) in
  let a := match start with None => 0%Z | Some i => slice_bound len i end in
  let b := match stop with None => len | Some i => slice_bound len i end in
  firstn (Z.to_nat (b - a)) (skipn (Z.to_nat a) l).

(** [l[idx]] for an integer [idx]: negative indices count from the end,
    anything outside [-len, len) raises. *)
Definition py_index (l : list X) (idx : Z) : result X :=
  let len := Z.of_nat (length l) in
  let i := if (idx <? 0)%Z then (idx + len)%Z else idx in
  if ((0 <=? i) && (i <? len))%Z
  then match nth_error l (Z.to_nat i) with
       | Some x => Ok x
       | None => Raise IndexError
       end
  else Raise IndexError.

(** [obj[idx]] where [obj] may be [None]. *)
Definition subscript (obj : option (list X)) (idx : Z) : result X :=
  match obj with
  | None => Raise TypeError
  | Some l => py_index l idx
  end.

(** [l[indices]] for an index tensor of non-negative entries. *)
Fixpoint index_select (l : list X) (indices : list nat) : result (list X) :=
  match indices with
  | [] => Ok []
  | i :: rest =>
      match nth_error l i with
      | None => Raise IndexError
      | Some x => xs <- index_select l rest ;; Ok (x :: xs)
      end
  end.

End Indexing.

(** [t[:, start:stop]] *)
Definition col_slice {A : Type} (start stop : option Z) (t : Tensor A)
  : Tensor A :=
  map (py_slice start stop) t.

(** ** VectorDataset *)

Module VectorDataset.

Record t (A : Type) : Type := mk {
  input_data : option (Tensor A);
  output_data : option (Tensor A)
}.

Definition __init__ {A} (input_data output_data : option (Tensor A)) : t A :=
  mk input_data output_data.

Definition __len__ {A} (self : t A) : result nat :=
  match input_data self with
  | None => Raise TypeError
  | Some x => Ok (length x)
  end.

Definition __getitem__ {A} (self : t A) (idx : Z)
  : result (list A * list A) :=
  x <- subscript (input_data self) idx ;;
  y <- subscript (output_data self) idx ;;
  Ok (x, y).

End VectorDataset.

(** ** The loader built by [torch.utils.data.DataLoader(...)]

    Of torch's loader the module under study uses the constructor only.  The
    constructor stores its arguments after checking them: it rejects a
    negative worker count and a batch size that is not positive.  With the
    default sequential sampler it does not look into the dataset. *)

Module DataLoader.

Record t (A : Type) : Type := mk {
  dataset : VectorDataset.t A;
  num_workers : Z;
  batch_size : nat
}.

Definition __init__ {A} (dataset : VectorDataset.t A) (num_workers : Z)
           (batch_size : nat) : result (t A) :=
  if (num_workers <? 0)%Z then Raise ValueError
  else if (batch_size =? 0)%nat then Raise ValueError
  else Ok (mk dataset num_workers batch_size).

End DataLoader.

(** ** RandomDataModule *)

Module RandomDataModule.

Record hparams_t : Type := mk_hparams { data_num_workers : Z }.

Record t (A : Type) : Type := mk {
  hparams : hparams_t;
  data : Tensor A;
  batch_size : nat;
  train_input_data : option (Tensor A);
  train_output_data : option (Tensor A);
  val_input_data : option (Tensor A);
  val_output_data : option (Tensor A);
  test_input_data : option (Tensor A);
  test_output_data : option (Tensor A)
}.

Definition __init__ {A} (hp : hparams_t) (d : Tensor A) : t A :=
  mk hp d (length d) None None None None None None.

(** [input_dim = 1], local to [_split_input_output_data]. *)
Definition input_dim : Z := 1.

Definition _split_input_output_data {A} (d : Tensor A)
  : result (Tensor A * Tensor A) :=
  let input_data := col_slice (Some 0%Z) (Some input_dim) d in
  let output_data := col_slice (Some input_dim) None d in
  Ok (input_data, output_data).

(** [train_pct = 0.8] and [val_pct = 0.1], local to [setup]. *)
Definition train_pct : Q := 0.8.
Definition val_pct : Q := 0.1.

(** [math.floor(train_pct * samples)] *)
Definition train_samples_idx (samples : nat) : Z :=
  Qfloor (train_pct * inject_Z (Z.of_nat samples)).

(** [train_samples_idx + math.floor(val_pct * samples)] *)
Definition val_samples_idx (samples : nat) : Z :=
  (train_samples_idx samples
   + Qfloor (val_pct * inject_Z (Z.of_nat samples)))%Z.

Section Setup.
Context {A : Type} {generator : Type}.

(** [torch.randperm(n)] from a generator state: the indices drawn and the
    state afterwards. *)
Variable randperm : nat -> generator -> list nat * generator.

Definition setup (self : t A) (stage : option string) (g : generator)
  : result (t A * generator) :=
  let samples := length (data self) in
  let '(random_indices, g') := randperm (length (data self)) g in
  data' <- index_select (data self) random_indices ;;
  let train_data :=
    py_slice (Some 0%Z) (Some (train_samples_idx samples)) data' in
  let val_data :=
    py_slice (Some (train_samples_idx samples))
             (Some (val_samples_idx samples)) data' in
  let test_data := py_slice (Some (val_samples_idx samples)) None data' in
  '(train_in, train_out) <- _split_input_output_data train_data ;;
  '(val_in, val_out) <- _split_input_output_data val_data ;;
  '(test_in, test_out) <- _split_input_output_data test_data ;;
  Ok (mk (hparams self) data' (batch_size self)
         (Some train_in) (Some train_out)
         (Some val_in) (Some val_out)
         (Some test_in) (Some test_out),
      g').

End Setup.

Definition train_dataloader {A} (self : t A) : result (DataLoader.t A) :=
  let train_split :=
    VectorDataset.__init__ (train_input_data self) (train_output_data self) in
  DataLoader.__init__ train_split (data_num_workers (hparams self))
                      (batch_size self).

Definition val_dataloader {A} (self : t A) : result (DataLoader.t A) :=
  let val_split :=
    VectorDataset.__init__ (val_input_data self) (val_output_data self) in
  DataLoader.__init__ val_split (data_num_workers (hparams self))
                      (batch_size self).

Definition test_dataloader {A} (self : t A) : result (DataLoader.t A) :=
  let test_split :=
    VectorDataset.__init__ (test_input_data self) (test_output_data self) in
  DataLoader.__init__ test_split (data_num_workers (hparams self))
                      (batch_size self).

End RandomDataModule.

(** ** The split points in IEEE binary64

    [math.floor(train_pct * samples)] as Python evaluates it: both operands
    are binary64 values, the product is rounded to nearest, and the floor of
    the rounded product is taken. *)

Module F64.
(** [math.floor] of a finite float; infinities and NaN raise in Python. *)
Definition floor (f : float) : option Z :=
  match Prim2SF f with
  | S754_zero _ => Some 0%Z
  | S754_finite s m e =>
      let z := if s then Zneg m else Zpos m in
      Some (if (0 <=? e)%Z then z * 2 ^ e else z / 2 ^ (- e))%Z
  | S754_infinity _ | S754_nan => None
  end.

Definition of_nat (n : nat) : float :=
  PrimFloat.of_uint63 (Uint63.of_Z (Z.of_nat n)).

(** The binary64 values nearest to 0.8 and 0.1. *)
Definition train_pct : float := 0x1.999999999999ap-1%float.
Definition val_pct : float := 0x1.999999999999ap-4%float.

Definition train_samples_idx (samples : nat) : option Z :=
  floor (train_pct * of_nat samples).

Definition val_samples_idx (samples : nat) : option Z :=
  match train_samples_idx samples, floor (val_pct * of_nat samples) with
  | Some t, Some v => Some (t + v)%Z
  | _, _ => None
  end.

(** Both models of the split points give the same integers. *)
Definition agrees (samples : nat) : bool :=
  match train_samples_idx samples, val_samples_idx samples with
  | Some t, Some v =>
      (t =? RandomDataModule.train_samples_idx samples)%Z
      && (v =? RandomDataModule.val_samples_idx samples)%Z
  | _, _ => false
  end.
End F64.

(** ** A concrete permutation source

    A stand-in for a seeded [torch.randperm]: the state is a counter, the
    permutation drawn is the rotation of [0, n) by the counter, and drawing
    advances the counter. *)

Definition rotating_randperm (n : nat) (g : nat) : list nat * nat :=
  let k := (g mod n)%nat in
  ((skipn k (seq 0 n) ++ firstn k (seq 0 n))%list, S g).

(** ** Vocabulary of the statements *)

(** The split points as row counts. *)
Definition train_end (samples : nat) : nat :=
  Z.to_nat (RandomDataModule.train_samples_idx samples).

Definition val_end (samples : nat) : nat :=
  Z.to_nat (RandomDataModule.val_samples_idx samples).

(** The rows [a], [a+1], ..., [b-1] of [l]. *)
Definition rows_range {X : Type} (a b : nat) (l : list X) : list X :=
  firstn (b - a) (skipn a l).

(** The indices [a], [a+1], ..., [b-1]. *)
Definition index_range (a b : nat) : list nat := seq a (b - a).

(** The three datasets a module exposes, as its loader accessors build them. *)
Definition train_split {A} (m : RandomDataModule.t A) : VectorDataset.t A :=
  VectorDataset.__init__ (RandomDataModule.train_input_data m)
                         (RandomDataModule.train_output_data m).

Definition val_split {A} (m : RandomDataModule.t A) : VectorDataset.t A :=
  VectorDataset.__init__ (RandomDataModule.val_input_data m)
                         (RandomDataModule.val_output_data m).

Definition test_split {A} (m : RandomDataModule.t A) : VectorDataset.t A :=
  VectorDataset.__init__ (RandomDataModule.test_input_data m)
                         (RandomDataModule.test_output_data m).

(** A dataset holds exactly the column split of [rows]. *)
Definition holds_rows {A} (ds : VectorDataset.t A) (rows : Tensor A) : Prop :=
  exists ins outs,
    RandomDataModule._split_input_output_data rows = Ok (ins, outs)
    /\ VectorDataset.input_data ds = Some ins
    /\ VectorDataset.output_data ds = Some outs.

(** The rows of a dataset, each feature vector glued back to its target
    vector. *)
Definition dataset_rows {A} (ds : VectorDataset.t A) : Tensor A :=
  match VectorDataset.input_data ds, VectorDataset.output_data ds with
  | Some ins, Some outs =>
      map (fun p => (fst p ++ snd p)%list) (combine ins outs)
  | _, _ => []
  end.

(** A loader accessor returned a loader of the given batch size over a
    dataset of the given length. *)
Definition loader_shape {A} (r : result (DataLoader.t A))
           (ds : VectorDataset.t A) (workers : Z) (batch rows : nat) : Prop :=
  r = Ok (DataLoader.mk ds workers batch)
  /\ VectorDataset.__len__ ds = Ok rows.

(** All rows a module exposes through its three datasets. *)
Definition all_rows {A} (m : RandomDataModule.t A) : Tensor A :=
  (dataset_rows (train_split m) ++ dataset_rows (val_split m)
   ++ dataset_rows (test_split m))%list.

(** ** Sample data *)

Definition sample_hparams : RandomDataModule.hparams_t :=
  RandomDataModule.mk_hparams 4.

(** Ten rows of three columns: row [i] is [[i; 100 + i; 200 + i]]. *)
Definition sample_data : Tensor Z :=
  map (fun i => [Z.of_nat i; 100 + Z.of_nat i; 200 + Z.of_nat i]%Z) (seq 0 10).

Definition sample_module : RandomDataModule.t Z :=
  RandomDataModule.__init__ sample_hparams sample_data.

(** ** Calling [setup] more than once *)

Section Drivers.
Context {A : Type} {generator : Type}.
Variable randperm : nat -> generator -> list nat * generator.

(** One [setup] call per stage of the list, in order, on the same module. *)
Fixpoint run_setups (stages : list (option string))
         (m : RandomDataModule.t A) (g : generator)
  : result (RandomDataModule.t A * generator) :=
  match stages with
  | [] => Ok (m, g)
  | stage :: rest =>
      '(m', g') <- RandomDataModule.setup randperm m stage g ;;
      run_setups rest m' g'
  end.

(** The permutation source that draws twice and returns the indices of the
    first draw read through the second. *)
Definition twice_randperm (n : nat) (g : generator) : list nat * generator :=
  let '(p, g1) := randperm n g in
  let '(q, g2) := randperm n g1 in
  (map (fun i => nth i p 0%nat) q, g2).

End Drivers.

(** ** Checking the binary64 split points over a range *)

(** At [z] samples the binary64 floors are the integer quotients. *)
Definition f64_agrees_at (z : Z) : bool :=
  match F64.floor (F64.train_pct * PrimFloat.of_uint63 (Uint63.of_Z z)),
        F64.floor (F64.val_pct * PrimFloat.of_uint63 (Uint63.of_Z z)) with
  | Some t, Some v => ((t =? 8 * z / 10) && (v =? z / 10))%Z
  | _, _ => false
  end.

(** One step of the scan: the verdict so far and the next sample count. *)
Definition f64_scan_step (st : bool * Z) : bool * Z :=
  (fst st && f64_agrees_at (snd st), (snd st + 1)%Z).

(** The sample counts [0, 1, ..., k - 1] all agree. *)
Definition f64_agree_below (k : N) : bool :=
  fst (N.iter k f64_scan_step (true, 0%Z)).

(** ** [main]: the raw dataset and the module built from it

    torch's generator, [linspace] and the scalar arithmetic are taken as
    given: [manual_seed] gives the state a seed sets, [randn_value g k] the
    [k]-th value [torch.randn] draws from state [g] and [randn_next g k] the
    state after [k] values, [linspace_value start stop steps i] the [i]-th of
    the [steps] values of [torch.linspace]. *)

Section MainProgram.
Context {A : Type} {generator : Type}.
Variable randperm : nat -> generator -> list nat * generator.
Variable manual_seed : Z -> generator.
Variable randn_value : generator -> nat -> A.
Variable randn_next : generator -> nat -> generator.
Variable linspace_value : Z -> Z -> nat -> nat -> A.
Variables sin cos : A -> A.
Variables add mul : A -> A -> A.
Variables freq noise_scale : A.

(** [t.size()] of a 2-D tensor with at least one row. *)
Definition size (t : Tensor A) : nat * nat :=
  (length t, match t with [] => 0%nat | row :: _ => length row end).

(** [torch.randn(shape)]: the values are drawn in row-major order. *)
Definition randn (shape : nat * nat) (g : generator) : Tensor A * generator :=
  let '(rows, cols) := shape in
  (map (fun i => map (fun j => randn_value g (i * cols + j)) (seq 0 cols))
       (seq 0 rows),
   randn_next g (rows * cols)).

Definition linspace (start stop : Z) (steps : nat) : list A :=
  map (linspace_value start stop steps) (seq 0 steps).

(** [v.unsqueeze(1)] *)
Definition unsqueeze_1 (v : list A) : Tensor A := map (fun x => [x]) v.

(** A scalar function applied to every entry. *)
Definition tensor_map (f : A -> A) (t : Tensor A) : Tensor A :=
  map (map f) t.

(** [t + u] for two tensors of one shape. *)
Definition tensor_add (t u : Tensor A) : Tensor A :=
  map (fun rows =>
         map (fun xy => add (fst xy) (snd xy)) (combine (fst rows) (snd rows)))
      (combine t u).

(** [torch.cat(ts, 1)] for tensors of one row count. *)
Fixpoint cat_1 (ts : list (Tensor A)) : Tensor A :=
  match ts with
  | [] => []
  | [t] => t
  | t :: rest => map (fun p => (fst p ++ snd p)%list) (combine t (cat_1 rest))
  end.

(** [main], from [torch.manual_seed(3)] to [sinusoidal_data[0:10]]. *)
Definition main_sinusoidal_data : result (Tensor A * generator) :=
  let g0 := manual_seed 3 in
  let samples := 100%nat in
  let x_domain := 1%Z in
  let input_data := unsqueeze_1 (linspace 0 x_domain samples) in
  let '(noise_sin, g1) := randn (size input_data) g0 in
  let sin_output_data :=
    tensor_add (tensor_map sin (tensor_map (fun x => mul x freq) input_data))
               (tensor_map (fun x => mul x noise_scale) noise_sin) in
  let '(noise_cos, g2) := randn (size input_data) g1 in
  let cos_output_data :=
    tensor_add (tensor_map cos (tensor_map (fun x => mul x freq) input_data))
               (tensor_map (fun x => mul x noise_scale) noise_cos) in
  let sinusoidal_data :=
    cat_1 [input_data; sin_output_data; cos_output_data] in
  let '(random_indices, g3) := randperm (length sinusoidal_data) g2 in
  sinusoidal_data' <- index_select sinusoidal_data random_indices ;;
  Ok (py_slice (Some 0%Z) (Some 10%Z) sinusoidal_data', g3).

(** [main], up to and including [data_module.setup()]; the parsed arguments
    carry [data_num_workers = 4]. *)
Definition main_data_module : result (RandomDataModule.t A * generator) :=
  '(sinusoidal_data, g) <- main_sinusoidal_data ;;
  let hparams_args := RandomDataModule.mk_hparams 4 in
  let data_module := RandomDataModule.__init__ hparams_args sinusoidal_data in
  RandomDataModule.setup randperm data_module None g.

(** The row of sample [i]: its abscissa, its noisy sine and its noisy
    cosine. *)
Definition sample_row (i : nat) : list A :=
  let x := linspace_value 0 1 100 i in
  let g0 := manual_seed 3 in
  let g1 := randn_next g0 100 in
  [x;
   add (sin (mul x freq)) (mul (randn_value g0 i) noise_scale);
   add (cos (mul x freq)) (mul (randn_value g1 i) noise_scale)].

End MainProgram.

(** * Properties *)

(** ** Slicing and indexing *)

Lemma py_slice_range {X : Type} (a b : Z) (l : list X) :
  (0 <= a <= b)%Z -> (b <= Z.of_nat (length l))%Z ->
  py_slice (Some a) (Some b) l = rows_range (Z.to_nat a) (Z.to_nat b) l.
Proof.
  intros Hab Hb. unfold py_slice, rows_range, slice_bound.
  destruct (Z.ltb_spec a 0); [lia|].
  destruct (Z.ltb_spec b 0); [lia|].
  rewrite !Z.min_l by lia.
  now rewrite Z2Nat.inj_sub by lia.
Qed.

Lemma py_slice_tail {X : Type} (a : Z) (l : list X) :
  (0 <= a <= Z.of_nat (length l))%Z ->
  py_slice (Some a) None l = rows_range (Z.to_nat a) (length l) l.
Proof.
  intros Ha. unfold py_slice, rows_range, slice_bound.
  destruct (Z.ltb_spec a 0); [lia|].
  rewrite Z.min_l by lia.
  now rewrite Z2Nat.inj_sub, Nat2Z.id by lia.
Qed.

Lemma rows_range_length {X : Type} (a b : nat) (l : list X) :
  (a <= b <= length l)%nat -> length (rows_range a b l) = (b - a)%nat.
Proof.
  intros H. unfold rows_range. rewrite length_firstn, length_skipn. lia.
Qed.

Lemma rows_range_nth_error {X : Type} (a b i : nat) (l : list X) :
  (i < b - a)%nat ->
  nth_error (rows_range a b l) i = nth_error l (a + i).
Proof.
  intros Hi. unfold rows_range.
  rewrite nth_error_firstn, nth_error_skipn.
  destruct (Nat.ltb_spec i (b - a)); [reflexivity | lia].
Qed.

Lemma rows_range_cover {X : Type} (a b : nat) (l : list X) :
  (a <= b)%nat ->
  (rows_range 0 a l ++ rows_range a b l ++ rows_range b (length l) l)%list = l.
Proof.
  intros Hab. unfold rows_range. cbn [skipn].
  rewrite Nat.sub_0_r.
  replace (skipn b l) with (skipn (b - a) (skipn a l))
    by (rewrite skipn_skipn; f_equal; lia).
  rewrite (firstn_all2 (n := length l - b)).
  - now rewrite !firstn_skipn.
  - rewrite !length_skipn. lia.
Qed.

Lemma firstn_of_seq (k start len : nat) :
  firstn k (seq start len) = seq start (Nat.min k len).
Proof.
  revert start len.
  induction k as [|k IH]; intros start [|len]; cbn; try reflexivity.
  now rewrite IH.
Qed.

Lemma rows_range_seq (a b n : nat) :
  (a <= b <= n)%nat -> rows_range a b (seq 0 n) = index_range a b.
Proof.
  intros H. unfold rows_range, index_range.
  rewrite skipn_seq, firstn_of_seq. f_equal. lia.
Qed.

Lemma rows_range_In {X : Type} (a b : nat) (l : list X) (x : X) :
  In x (rows_range a b l) -> In x l.
Proof.
  unfold rows_range. intros H.
  rewrite <- (firstn_skipn a l). apply in_or_app. right.
  rewrite <- (firstn_skipn (b - a) (skipn a l)). apply in_or_app. now left.
Qed.

Lemma index_range_cover (a b n : nat) :
  (a <= b <= n)%nat ->
  (index_range 0 a ++ index_range a b ++ index_range b n)%list = seq 0 n.
Proof.
  intros H.
  rewrite <- (rows_range_seq (a := 0) (b := a) (n := n)) by lia.
  rewrite <- (rows_range_seq (a := a) (b := b) (n := n)) by lia.
  rewrite <- (rows_range_seq (a := b) (b := n) (n := n)) by lia.
  pose proof (rows_range_cover (a := a) (b := b) (seq 0 n)) as C.
  rewrite length_seq in C. apply C. lia.
Qed.

Lemma py_index_in_range {X : Type} (l : list X) (idx : Z) :
  (0 <= idx < Z.of_nat (length l))%Z ->
  exists x, nth_error l (Z.to_nat idx) = Some x /\ py_index l idx = Ok x.
Proof.
  intros H. unfold py_index.
  destruct (Z.ltb_spec idx 0); [lia|].
  destruct (Z.leb_spec 0 idx); [|lia].
  destruct (Z.ltb_spec idx (Z.of_nat (length l))); [|lia]. cbn.
  destruct (nth_error l (Z.to_nat idx)) as [x|] eqn:E.
  - now exists x.
  - apply nth_error_None in E. lia.
Qed.

Lemma py_index_negative {X : Type} (l : list X) (idx : Z) :
  (- Z.of_nat (length l) <= idx < 0)%Z ->
  py_index l idx = py_index l (idx + Z.of_nat (length l)).
Proof.
  intros H. unfold py_index.
  destruct (Z.ltb_spec idx 0); [|lia].
  destruct (Z.ltb_spec (idx + Z.of_nat (length l)) 0); [lia|].
  reflexivity.
Qed.

Lemma py_index_out_of_range {X : Type} (l : list X) (idx : Z) :
  (idx < - Z.of_nat (length l) \/ Z.of_nat (length l) <= idx)%Z ->
  py_index l idx = Raise IndexError.
Proof.
  intros H. unfold py_index.
  destruct (Z.ltb_spec idx 0).
  - destruct (Z.leb_spec 0 (idx + Z.of_nat (length l))); [lia|reflexivity].
  - destruct (Z.ltb_spec idx (Z.of_nat (length l))); [lia|].
    now rewrite andb_false_r.
Qed.

Lemma py_index_ok {X : Type} (l : list X) (idx : Z) (x : X) :
  py_index l idx = Ok x -> In x l.
Proof.
  unfold py_index.
  destruct (_ && _); [|discriminate].
  destruct (nth_error l _) eqn:E; [|discriminate].
  intros [= <-]. eapply nth_error_In; eassumption.
Qed.

Lemma index_select_ok {X : Type} (l : list X) (indices : list nat) :
  Forall (fun i => (i < length l)%nat) indices ->
  exists l', index_select l indices = Ok l'
             /\ map Some l' = map (nth_error l) indices.
Proof.
  induction 1 as [|i rest Hi _ IH]; cbn.
  - now exists [].
  - destruct IH as (l' & -> & Hl').
    destruct (nth_error l i) as [x|] eqn:E.
    + exists (x :: l'). cbn. now rewrite Hl'.
    + apply nth_error_None in E. lia.
Qed.

Lemma nth_error_seq_all {X : Type} (l : list X) :
  map (nth_error l) (seq 0 (length l)) = map Some l.
Proof.
  induction l as [|x l IH]; [reflexivity|].
  cbn [length seq map nth_error]. f_equal.
  rewrite <- seq_shift, map_map. exact IH.
Qed.

Lemma index_select_permutation {X : Type} (l : list X) (indices : list nat) :
  Permutation indices (seq 0 (length l)) ->
  exists l', index_select l indices = Ok l' /\ Permutation l' l.
Proof.
  intros HP.
  destruct (index_select_ok l (indices := indices)) as (l' & Hsel & Hmap).
  - apply Forall_forall. intros i Hi.
    apply (Permutation_in _ HP), in_seq in Hi. lia.
  - exists l'. split; [exact Hsel|].
    assert (HS : Permutation (map Some l') (map Some l)).
    { rewrite Hmap, <- nth_error_seq_all. now apply Permutation_map. }
    apply Permutation_map_inv in HS as (l3 & E & HP3).
    assert (l' = l3) as ->.
    { clear - E. revert l3 E.
      induction l' as [|x l' IH]; intros [|y l3]; cbn; try discriminate;
        [reflexivity|].
      intros [= -> E]. f_equal. now apply IH. }
    now symmetry.
Qed.

(** ** The split points *)

Lemma train_samples_idx_div (n : nat) :
  RandomDataModule.train_samples_idx n = (8 * Z.of_nat n / 10)%Z.
Proof.
  unfold RandomDataModule.train_samples_idx, RandomDataModule.train_pct.
  unfold Qfloor, Qmult, inject_Z. cbn [Qnum Qden Pos.mul]. reflexivity.
Qed.

Lemma val_samples_idx_div (n : nat) :
  RandomDataModule.val_samples_idx n
  = (8 * Z.of_nat n / 10 + Z.of_nat n / 10)%Z.
Proof.
  unfold RandomDataModule.val_samples_idx. rewrite train_samples_idx_div.
  unfold RandomDataModule.val_pct, Qfloor, Qmult, inject_Z.
  cbn [Qnum Qden Pos.mul]. now rewrite Z.mul_1_l.
Qed.

Lemma split_points_ordered (n : nat) :
  (0 <= RandomDataModule.train_samples_idx n
   <= RandomDataModule.val_samples_idx n)%Z
  /\ (RandomDataModule.val_samples_idx n <= Z.of_nat n)%Z.
Proof.
  rewrite val_samples_idx_div, train_samples_idx_div.
  Z.div_mod_to_equations. lia.
Qed.

Lemma split_ends_ordered (n : nat) :
  (train_end n <= val_end n <= n)%nat.
Proof.
  unfold train_end, val_end. pose proof (split_points_ordered n). lia.
Qed.

(** The same ordering for any pair of valid fractions: flooring the two
    products never asks for more rows than there are. *)
Lemma floor_split_valid_fractions (train_pct val_pct : Q) (n : nat) :
  0 <= train_pct -> 0 <= val_pct -> train_pct + val_pct <= 1 ->
  let t := Qfloor (train_pct * inject_Z (Z.of_nat n)) in
  let v := Qfloor (val_pct * inject_Z (Z.of_nat n)) in
  (0 <= t /\ 0 <= v /\ t + v <= Z.of_nat n)%Z.
Proof.
  intros Ht Hv Hs t v.
  assert (Hn : 0 <= inject_Z (Z.of_nat n))
    by (change (inject_Z 0 <= inject_Z (Z.of_nat n)); rewrite <- Zle_Qle; lia).
  repeat split.
  - subst t. rewrite <- (Qfloor_Z 0). apply Qfloor_resp_le.
    now apply Qmult_le_0_compat.
  - subst v. rewrite <- (Qfloor_Z 0). apply Qfloor_resp_le.
    now apply Qmult_le_0_compat.
  - rewrite <- (Qfloor_Z (t + v)), <- (Qfloor_Z (Z.of_nat n)).
    apply Qfloor_resp_le. rewrite inject_Z_plus.
    apply Qle_trans
      with (train_pct * inject_Z (Z.of_nat n) + val_pct * inject_Z (Z.of_nat n)).
    + apply Qplus_le_compat; apply Qfloor_le.
    + rewrite <- Qmult_plus_distr_l.
      rewrite <- (Qmult_1_l (inject_Z (Z.of_nat n))) at 2.
      now apply Qmult_le_compat_r.
Qed.

Lemma f64_split_points_agree :
  forallb F64.agrees (seq 0 4097) = true.
Proof. vm_compute. reflexivity. Qed.

(** ** The permutation source of the examples *)

Lemma rotating_randperm_perm (n g : nat) :
  Permutation (fst (rotating_randperm n g)) (seq 0 n).
Proof.
  unfold rotating_randperm. cbn [fst].
  rewrite Permutation_app_comm. now rewrite firstn_skipn.
Qed.

(** ** The column split *)

Lemma feature_columns {X : Type} (row : list X) :
  py_slice (Some 0%Z) (Some RandomDataModule.input_dim) row = firstn 1 row.
Proof.
  unfold py_slice, slice_bound, RandomDataModule.input_dim.
  destruct row as [|x row]; [reflexivity|].
  cbn [Z.ltb Z.compare skipn Z.to_nat].
  rewrite Z.min_l, Z.min_l by (cbn [length]; lia). reflexivity.
Qed.

Lemma target_columns {X : Type} (row : list X) :
  py_slice (Some RandomDataModule.input_dim) None row = skipn 1 row.
Proof.
  unfold py_slice, slice_bound, RandomDataModule.input_dim.
  destruct row as [|x row]; [reflexivity|].
  cbn [Z.ltb Z.compare].
  rewrite Z.min_l by (cbn [length]; lia).
  change (Z.to_nat 1) with 1%nat. cbn [skipn].
  apply firstn_all2. cbn [length]. lia.
Qed.

Lemma split_input_output_data_eq {A : Type} (d : Tensor A) :
  RandomDataModule._split_input_output_data d
  = Ok (map (firstn 1) d, map (skipn 1) d).
Proof.
  unfold RandomDataModule._split_input_output_data, col_slice.
  do 2 f_equal; apply map_ext; intros row.
  - apply feature_columns.
  - apply target_columns.
Qed.

Lemma glue_columns {A : Type} (d : Tensor A) :
  map (fun p => (fst p ++ snd p)%list)
      (combine (map (firstn 1) d) (map (skipn 1) d)) = d.
Proof.
  induction d as [|row d IH]; [reflexivity|].
  cbn [map combine fst snd]. now rewrite IH, firstn_skipn.
Qed.

(** ** Datasets holding a given block of rows *)

Lemma holds_rows_fields {A : Type} (ds : VectorDataset.t A) (rows : Tensor A) :
  holds_rows ds rows <->
  VectorDataset.input_data ds = Some (map (firstn 1) rows)
  /\ VectorDataset.output_data ds = Some (map (skipn 1) rows).
Proof.
  unfold holds_rows. split.
  - intros (ins & outs & Hs & Hi & Ho).
    rewrite split_input_output_data_eq in Hs. injection Hs as <- <-.
    now split.
  - intros [Hi Ho]. exists (map (firstn 1) rows), (map (skipn 1) rows).
    now rewrite split_input_output_data_eq.
Qed.

Lemma holds_rows_len {A : Type} (ds : VectorDataset.t A) (rows : Tensor A) :
  holds_rows ds rows -> VectorDataset.__len__ ds = Ok (length rows).
Proof.
  intros H. apply holds_rows_fields in H as [Hi _].
  unfold VectorDataset.__len__. now rewrite Hi, length_map.
Qed.

Lemma holds_rows_dataset_rows {A : Type}
      (ds : VectorDataset.t A) (rows : Tensor A) :
  holds_rows ds rows -> dataset_rows ds = rows.
Proof.
  intros H. apply holds_rows_fields in H as [Hi Ho].
  unfold dataset_rows. rewrite Hi, Ho. apply glue_columns.
Qed.

Lemma holds_rows_unique {A : Type} (ds ds' : VectorDataset.t A) rows :
  holds_rows ds rows -> holds_rows ds' rows -> ds = ds'.
Proof.
  intros H H'.
  apply holds_rows_fields in H as [Hi Ho].
  apply holds_rows_fields in H' as [Hi' Ho'].
  destruct ds, ds'; cbn in *. congruence.
Qed.

Lemma holds_rows_getitem {A : Type}
      (ds : VectorDataset.t A) (rows : Tensor A) (idx : Z) :
  holds_rows ds rows ->
  (0 <= idx < Z.of_nat (length rows))%Z ->
  exists row,
    nth_error rows (Z.to_nat idx) = Some row
    /\ VectorDataset.__getitem__ ds idx = Ok (firstn 1 row, skipn 1 row).
Proof.
  intros H Hidx. apply holds_rows_fields in H as [Hi Ho].
  destruct (nth_error rows (Z.to_nat idx)) as [row|] eqn:E.
  2:{ apply nth_error_None in E. lia. }
  exists row. split; [reflexivity|].
  unfold VectorDataset.__getitem__, subscript. rewrite Hi, Ho.
  destruct (py_index_in_range (map (firstn 1) rows) (idx := idx))
    as (x & Hx & ->); [rewrite length_map; lia|].
  destruct (py_index_in_range (map (skipn 1) rows) (idx := idx))
    as (y & Hy & ->); [rewrite length_map; lia|].
  rewrite nth_error_map, E in Hx, Hy. cbn in Hx, Hy.
  injection Hx as <-. injection Hy as <-. reflexivity.
Qed.

Lemma holds_rows_getitem_ok {A : Type}
      (ds : VectorDataset.t A) (rows : Tensor A) (idx : Z) x y :
  holds_rows ds rows ->
  VectorDataset.__getitem__ ds idx = Ok (x, y) ->
  exists row, In row rows /\ x = firstn 1 row /\ y = skipn 1 row.
Proof.
  intros H Hget.
  set (len := Z.of_nat (length rows)).
  destruct (Z_lt_ge_dec idx (- len)) as [Hlo|Hlo];
    [|destruct (Z_lt_ge_dec idx len) as [Hhi|Hhi]].
  - apply holds_rows_fields in H as [Hi _].
    unfold VectorDataset.__getitem__, subscript in Hget. rewrite Hi in Hget.
    rewrite py_index_out_of_range in Hget by (rewrite length_map; lia).
    discriminate.
  - assert (Hnorm : exists j, (0 <= j < len)%Z
                              /\ VectorDataset.__getitem__ ds j = Ok (x, y)).
    { destruct (Z_lt_ge_dec idx 0) as [Hneg|Hpos].
      - exists (idx + len)%Z. split; [lia|].
        pose proof H as H0. apply holds_rows_fields in H0 as [Hi Ho].
        unfold VectorDataset.__getitem__, subscript in *.
        rewrite Hi, Ho in *.
        rewrite (py_index_negative (map (firstn 1) rows)) in Hget
          by (rewrite length_map; lia).
        rewrite (py_index_negative (map (skipn 1) rows)) in Hget
          by (rewrite length_map; lia).
        now rewrite !length_map in Hget.
      - exists idx. split; [lia | exact Hget]. }
    destruct Hnorm as (j & Hj & Hgetj).
    destruct (holds_rows_getitem (idx := j) H Hj) as (row & Hrow & Hr).
    rewrite Hr in Hgetj. injection Hgetj as <- <-.
    exists row. split; [|split; reflexivity].
    eapply nth_error_In; eassumption.
  - apply holds_rows_fields in H as [Hi _].
    unfold VectorDataset.__getitem__, subscript in Hget. rewrite Hi in Hget.
    rewrite py_index_out_of_range in Hget by (rewrite length_map; lia).
    discriminate.
Qed.

(** ** The loader constructor *)

Lemma loader_init_ok {A : Type} (ds : VectorDataset.t A)
      (workers : Z) (batch : nat) :
  (0 <= workers)%Z -> (0 < batch)%nat ->
  DataLoader.__init__ ds workers batch = Ok (DataLoader.mk ds workers batch).
Proof.
  intros Hw Hb. unfold DataLoader.__init__.
  destruct (Z.ltb_spec workers 0); [lia|].
  destruct (Nat.eqb_spec batch 0); [lia|]. reflexivity.
Qed.

Lemma loader_init_no_rows {A : Type} (ds : VectorDataset.t A) (workers : Z) :
  DataLoader.__init__ ds workers 0 = Raise ValueError.
Proof.
  unfold DataLoader.__init__. now destruct (workers <? 0)%Z.
Qed.

(** A module over a raw dataset of no rows records batch size 0, which the
    loader constructor rejects, before [setup] and after it. *)
Lemma loaders_of_no_rows {A : Type} (m : RandomDataModule.t A) :
  RandomDataModule.batch_size m = 0%nat ->
  RandomDataModule.train_dataloader m = Raise ValueError
  /\ RandomDataModule.val_dataloader m = Raise ValueError
  /\ RandomDataModule.test_dataloader m = Raise ValueError.
Proof.
  intros H.
  unfold RandomDataModule.train_dataloader, RandomDataModule.val_dataloader,
    RandomDataModule.test_dataloader.
  rewrite H, !loader_init_no_rows. now repeat split.
Qed.

(** ** What [setup] leaves behind *)

Section SetupProperties.
Context {A : Type} {generator : Type}.
Variable randperm : nat -> generator -> list nat * generator.
Hypothesis randperm_perm :
  forall n g, Permutation (fst (randperm n g)) (seq 0 n).

Local Abbreviation setup := (RandomDataModule.setup randperm).

Lemma setup_ok (self : RandomDataModule.t A) (stage : option string)
      (g : generator) :
  let n := length (RandomDataModule.data self) in
  exists data' m',
    index_select (RandomDataModule.data self) (fst (randperm n g)) = Ok data'
    /\ Permutation data' (RandomDataModule.data self)
    /\ setup self stage g = Ok (m', snd (randperm n g))
    /\ RandomDataModule.hparams m' = RandomDataModule.hparams self
    /\ RandomDataModule.data m' = data'
    /\ RandomDataModule.batch_size m' = RandomDataModule.batch_size self
    /\ holds_rows (train_split m') (rows_range 0 (train_end n) data')
    /\ holds_rows (val_split m') (rows_range (train_end n) (val_end n) data')
    /\ holds_rows (test_split m') (rows_range (val_end n) n data').
Proof.
  intros n.
  destruct (index_select_permutation (RandomDataModule.data self)
              (randperm_perm n g)) as (data' & Hsel & Hperm).
  pose proof (Permutation_length Hperm) as Hlen. fold n in Hlen.
  pose proof (split_points_ordered n) as [Hte Hve].
  exists data'. eexists. split; [exact Hsel|]. split; [exact Hperm|].
  split.
  { unfold RandomDataModule.setup. fold n.
    destruct (randperm n g) as [p g'] eqn:Ep. cbn [fst snd] in *.
    rewrite Hsel. cbn [bind].
    rewrite !split_input_output_data_eq. cbn [bind]. reflexivity. }
  cbn [RandomDataModule.hparams RandomDataModule.data
       RandomDataModule.batch_size].
  repeat (split; [reflexivity|]).
  unfold train_split, val_split, test_split, VectorDataset.__init__.
  cbn [RandomDataModule.train_input_data RandomDataModule.train_output_data
       RandomDataModule.val_input_data RandomDataModule.val_output_data
       RandomDataModule.test_input_data RandomDataModule.test_output_data].
  rewrite !py_slice_range, py_slice_tail by lia.
  change (Z.to_nat 0) with 0%nat. fold (train_end n) (val_end n).
  rewrite Hlen.
  repeat split; apply holds_rows_fields; split; reflexivity.
Qed.

Lemma setup_lengths (n : nat) (data' : Tensor A) :
  length data' = n ->
  length (rows_range 0 (train_end n) data') = train_end n
  /\ length (rows_range (train_end n) (val_end n) data')
     = (val_end n - train_end n)%nat
  /\ length (rows_range (val_end n) n data') = (n - val_end n)%nat.
Proof.
  intros Hlen. pose proof (split_ends_ordered n).
  rewrite !rows_range_length by lia. lia.
Qed.

(** C1 (as amended).  For a raw dataset of at least one row and a worker
    count that is not negative: after [setup], each of the three loader
    accessors returns a loader over its own partition whose batch size is the
    row count of the whole raw dataset, [len(self.data)] as recorded by
    [__init__].  The three partitions have [train_end], [val_end - train_end]
    and [n - val_end] rows, which add up to that batch size; a partition with
    no rows still gets its loader. *)
Theorem loader_batch_size_total_rows
        (hp : RandomDataModule.hparams_t) (d : Tensor A)
        (stage : option string) (g : generator) :
  let n := length d in
  let workers := RandomDataModule.data_num_workers hp in
  (0 <= workers)%Z -> (0 < n)%nat ->
  exists m' g',
    setup (RandomDataModule.__init__ hp d) stage g = Ok (m', g')
    /\ loader_shape (RandomDataModule.train_dataloader m') (train_split m')
                    workers n (train_end n)
    /\ loader_shape (RandomDataModule.val_dataloader m') (val_split m')
                    workers n (val_end n - train_end n)
    /\ loader_shape (RandomDataModule.test_dataloader m') (test_split m')
                    workers n (n - val_end n)
    /\ (train_end n + (val_end n - train_end n) + (n - val_end n) = n)%nat.
Proof.
  intros n workers Hworkers Hn.
  destruct (setup_ok (RandomDataModule.__init__ hp d) stage g)
    as (data' & m' & _ & Hperm & Hset & Hhp & Hdata & Hbs & Htr & Hva & Hte).
  cbn [RandomDataModule.__init__ RandomDataModule.data
       RandomDataModule.hparams RandomDataModule.batch_size] in *.
  fold n in Hset, Htr, Hva, Hte, Hbs.
  pose proof (Permutation_length Hperm) as Hlen. fold n in Hlen.
  destruct (setup_lengths data' Hlen) as (L1 & L2 & L3).
  exists m', (snd (randperm n g)). split; [exact Hset|].
  unfold loader_shape, RandomDataModule.train_dataloader,
    RandomDataModule.val_dataloader, RandomDataModule.test_dataloader.
  fold (train_split m') (val_split m') (test_split m').
  rewrite Hhp, Hbs. fold workers.
  rewrite (loader_init_ok _ Hworkers Hn).
  rewrite (loader_init_ok _ Hworkers Hn).
  rewrite (loader_init_ok _ Hworkers Hn).
  rewrite (holds_rows_len Htr), (holds_rows_len Hva), (holds_rows_len Hte).
  rewrite L1, L2, L3.
  pose proof (split_ends_ordered n).
  repeat split; lia.
Qed.

(** C2.  For a dataset of [n] rows, [setup] computes
    [train_end = floor(0.8 * n)] and [val_end = train_end + floor(0.1 * n)],
    with [0 <= train_end <= val_end <= n], and its three partitions are the
    column splits of the rows [0, train_end), [train_end, val_end) and
    [val_end, n) of the shuffled data.  Ten rows give the ranges [0,8), [8,9),
    [9,10); two rows give [0,1), the empty [1,1) and [1,2). *)
Theorem setup_row_ranges
        (self : RandomDataModule.t A) (stage : option string) (g : generator) :
  let n := length (RandomDataModule.data self) in
  let t := RandomDataModule.train_samples_idx n in
  let v := RandomDataModule.val_samples_idx n in
  t = Qfloor (0.8 * inject_Z (Z.of_nat n))
  /\ v = (t + Qfloor (0.1 * inject_Z (Z.of_nat n)))%Z
  /\ (0 <= t <= v)%Z /\ (v <= Z.of_nat n)%Z
  /\ (exists m' g',
         setup self stage g = Ok (m', g')
         /\ length (RandomDataModule.data m') = n
         /\ holds_rows (train_split m')
              (rows_range 0 (Z.to_nat t) (RandomDataModule.data m'))
         /\ holds_rows (val_split m')
              (rows_range (Z.to_nat t) (Z.to_nat v) (RandomDataModule.data m'))
         /\ holds_rows (test_split m')
              (rows_range (Z.to_nat v) n (RandomDataModule.data m')))
  /\ (RandomDataModule.train_samples_idx 10 = 8%Z
      /\ RandomDataModule.val_samples_idx 10 = 9%Z)
  /\ (RandomDataModule.train_samples_idx 2 = 1%Z
      /\ RandomDataModule.val_samples_idx 2 = 1%Z).
Proof.
  intros n t v.
  split; [reflexivity|]. split; [reflexivity|].
  pose proof (split_points_ordered n) as [Ht Hv].
  split; [exact Ht|]. split; [exact Hv|].
  split; [|split; split; reflexivity].
  destruct (setup_ok self stage g)
    as (data' & m' & _ & Hperm & Hset & _ & Hdata & _ & Htr & Hva & Hte).
  exists m', (snd (randperm n g)). rewrite Hdata.
  split; [exact Hset|].
  split; [exact (Permutation_length Hperm)|].
  repeat split; assumption.
Qed.

(** C3.  The three index ranges [setup] cuts out of [0, n) are pairwise
    disjoint, concatenate to the whole of [0, n) and so have sizes adding up
    to [n]; each partition has as many rows as its range, and because the
    shuffle is a permutation the rows of the three partitions together are a
    permutation of the rows of the raw dataset. *)
Theorem setup_partitions_cover
        (self : RandomDataModule.t A) (stage : option string) (g : generator) :
  let n := length (RandomDataModule.data self) in
  let t := RandomDataModule.train_samples_idx n in
  let v := RandomDataModule.val_samples_idx n in
  let train_range := py_slice (Some 0%Z) (Some t) (seq 0 n) in
  let val_range := py_slice (Some t) (Some v) (seq 0 n) in
  let test_range := py_slice (Some v) None (seq 0 n) in
  (train_range = index_range 0 (train_end n)
   /\ val_range = index_range (train_end n) (val_end n)
   /\ test_range = index_range (val_end n) n)
  /\ (forall i, In i train_range -> ~ In i val_range)
  /\ (forall i, In i train_range -> ~ In i test_range)
  /\ (forall i, In i val_range -> ~ In i test_range)
  /\ (train_range ++ val_range ++ test_range)%list = seq 0 n
  /\ (length train_range + length val_range + length test_range = n)%nat
  /\ exists m' g',
      setup self stage g = Ok (m', g')
      /\ VectorDataset.__len__ (train_split m') = Ok (length train_range)
      /\ VectorDataset.__len__ (val_split m') = Ok (length val_range)
      /\ VectorDataset.__len__ (test_split m') = Ok (length test_range)
      /\ Permutation (all_rows m') (RandomDataModule.data self).
Proof.
  intros n t v train_range val_range test_range.
  pose proof (split_points_ordered n) as [Ht Hv].
  pose proof (split_ends_ordered n) as Hends.
  assert (Et : Z.to_nat t = train_end n) by reflexivity.
  assert (Ev : Z.to_nat v = val_end n) by reflexivity.
  assert (E1 : train_range = index_range 0 (train_end n)).
  { unfold train_range. rewrite py_slice_range by (rewrite ?length_seq; lia).
    change (Z.to_nat 0) with 0%nat. rewrite Et.
    apply rows_range_seq. lia. }
  assert (E2 : val_range = index_range (train_end n) (val_end n)).
  { unfold val_range. rewrite py_slice_range by (rewrite ?length_seq; lia).
    rewrite Et, Ev. now apply rows_range_seq. }
  assert (E3 : test_range = index_range (val_end n) n).
  { unfold test_range. rewrite py_slice_tail by (rewrite ?length_seq; lia).
    rewrite length_seq, Ev. apply rows_range_seq. lia. }
  split; [now repeat split|].
  rewrite E1, E2, E3. unfold index_range.
  split; [|split; [|split]]; try (intros i; rewrite !in_seq; lia).
  split; [apply (index_range_cover Hends)|].
  rewrite !length_seq. split; [lia|].
  destruct (setup_ok self stage g)
    as (data' & m' & _ & Hperm & Hset & _ & _ & _ & Htr & Hva & Hte).
  fold n in Hset, Htr, Hva, Hte.
  pose proof (Permutation_length Hperm) as Hlen. fold n in Hlen.
  destruct (setup_lengths data' Hlen) as (L1 & L2 & L3).
  exists m', (snd (randperm n g)). split; [exact Hset|].
  rewrite (holds_rows_len Htr), (holds_rows_len Hva), (holds_rows_len Hte).
  rewrite L1, L2, L3, Nat.sub_0_r.
  repeat (split; [reflexivity|]).
  unfold all_rows.
  rewrite (holds_rows_dataset_rows Htr), (holds_rows_dataset_rows Hva),
    (holds_rows_dataset_rows Hte).
  pose proof (rows_range_cover (a := train_end n) (b := val_end n) data') as C.
  rewrite Hlen in C. rewrite C by lia. exact Hperm.
Qed.

(** C4.  After [setup], every index in range of any of the three datasets
    returns a pair made of the first [input_dim] values and of the remaining
    values of one and the same row of the raw dataset; and any index at all
    for which [__getitem__] returns does so with such a pair. *)
Theorem partition_referential_integrity
        (self : RandomDataModule.t A) (stage : option string) (g : generator) :
  let k := Z.to_nat RandomDataModule.input_dim in
  exists m' g',
    setup self stage g = Ok (m', g')
    /\ forall ds, In ds [train_split m'; val_split m'; test_split m'] ->
       exists len,
         VectorDataset.__len__ ds = Ok len
         /\ (forall idx, (0 <= idx < Z.of_nat len)%Z ->
               exists row,
                 In row (RandomDataModule.data self)
                 /\ VectorDataset.__getitem__ ds idx
                    = Ok (firstn k row, skipn k row))
         /\ (forall idx x y,
               VectorDataset.__getitem__ ds idx = Ok (x, y) ->
               exists row,
                 In row (RandomDataModule.data self)
                 /\ x = firstn k row /\ y = skipn k row).
Proof.
  intros k.
  destruct (setup_ok self stage g)
    as (data' & m' & _ & Hperm & Hset & _ & _ & _ & Htr & Hva & Hte).
  set (n := length (RandomDataModule.data self)) in *.
  exists m', (snd (randperm n g)). split; [exact Hset|].
  assert (Hin : forall a b row,
             In row (rows_range a b data') ->
             In row (RandomDataModule.data self)).
  { intros a b row Hrow. apply (Permutation_in _ Hperm).
    eapply rows_range_In. exact Hrow. }
  assert (Hall : forall ds a b,
             holds_rows ds (rows_range a b data') ->
             exists len,
               VectorDataset.__len__ ds = Ok len
               /\ (forall idx, (0 <= idx < Z.of_nat len)%Z ->
                     exists row,
                       In row (RandomDataModule.data self)
                       /\ VectorDataset.__getitem__ ds idx
                          = Ok (firstn k row, skipn k row))
               /\ (forall idx x y,
                     VectorDataset.__getitem__ ds idx = Ok (x, y) ->
                     exists row,
                       In row (RandomDataModule.data self)
                       /\ x = firstn k row /\ y = skipn k row)).
  { intros ds a b Hds. exists (length (rows_range a b data')).
    split; [now apply holds_rows_len|]. split.
    - intros idx Hidx.
      destruct (holds_rows_getitem (idx := idx) Hds Hidx)
        as (row & Hrow & Hget).
      exists row. split; [|exact Hget].
      eapply Hin, nth_error_In. exact Hrow.
    - intros idx x y Hget.
      destruct (holds_rows_getitem_ok _ Hds Hget) as (row & Hrow & Hx & Hy).
      exists row. split; [|now split]. eapply Hin. exact Hrow. }
  intros ds [<-|[<-|[<-|[]]]]; eapply Hall; eassumption.
Qed.

(** C5 (as amended).  The test partition has [n - val_end] rows, that is
    [n - floor(0.8 * n) - floor(0.1 * n)]: whatever the two floors drop goes
    to the test partition, which is never smaller than the validation
    partition's [floor(0.1 * n)] rows. *)
Theorem test_range_absorbs_flooring
        (self : RandomDataModule.t A) (stage : option string) (g : generator) :
  let n := length (RandomDataModule.data self) in
  let train_rows := Qfloor (RandomDataModule.train_pct * inject_Z (Z.of_nat n)) in
  let val_rows := Qfloor (RandomDataModule.val_pct * inject_Z (Z.of_nat n)) in
  exists m' g' rows,
    setup self stage g = Ok (m', g')
    /\ VectorDataset.__len__ (test_split m') = Ok rows
    /\ Z.of_nat rows = (Z.of_nat n - RandomDataModule.val_samples_idx n)%Z
    /\ Z.of_nat rows = (Z.of_nat n - train_rows - val_rows)%Z
    /\ (val_rows <= Z.of_nat rows)%Z.
Proof.
  intros n train_rows val_rows.
  destruct (setup_ok self stage g)
    as (data' & m' & _ & Hperm & Hset & _ & _ & _ & _ & _ & Hte).
  fold n in Hset, Hte.
  pose proof (Permutation_length Hperm) as Hlen. fold n in Hlen.
  destruct (setup_lengths data' Hlen) as (_ & _ & L3).
  exists m', (snd (randperm n g)), (n - val_end n)%nat.
  split; [exact Hset|].
  split; [now rewrite (holds_rows_len Hte), L3|].
  pose proof (split_points_ordered n) as [Ht Hv].
  assert (Ev : RandomDataModule.val_samples_idx n = (train_rows + val_rows)%Z)
    by reflexivity.
  assert (Et : train_rows = (8 * Z.of_nat n / 10)%Z)
    by apply train_samples_idx_div.
  assert (Evr : val_rows = (Z.of_nat n / 10)%Z).
  { pose proof (val_samples_idx_div n) as D. rewrite Ev, Et in D. lia. }
  unfold val_end. rewrite Ev in *.
  repeat split; try lia.
  rewrite Et, Evr. Z.div_mod_to_equations. lia.
Qed.

(** C9 (as amended).  Two calls of [setup] on the same module with the
    generator in the same state before each draw the same permutation and
    yield the same split sizes and the same rows overall; but the first call
    stores the shuffled rows back into the module, so the second call
    permutes the already shuffled rows.  The partitions are identical
    whenever [setup] is run with the same generator state from modules
    holding the same rows. *)
Theorem setup_twice_same_seed
        (self : RandomDataModule.t A) (stage1 stage2 : option string)
        (g : generator) :
  let n := length (RandomDataModule.data self) in
  exists m1 m2 g',
    setup self stage1 g = Ok (m1, g')
    /\ setup m1 stage2 g = Ok (m2, g')
    /\ index_select (RandomDataModule.data self) (fst (randperm n g))
       = Ok (RandomDataModule.data m1)
    /\ index_select (RandomDataModule.data m1) (fst (randperm n g))
       = Ok (RandomDataModule.data m2)
    /\ VectorDataset.__len__ (train_split m2)
       = VectorDataset.__len__ (train_split m1)
    /\ VectorDataset.__len__ (val_split m2)
       = VectorDataset.__len__ (val_split m1)
    /\ VectorDataset.__len__ (test_split m2)
       = VectorDataset.__len__ (test_split m1)
    /\ Permutation (all_rows m2) (all_rows m1)
    /\ Permutation (all_rows m1) (RandomDataModule.data self)
    /\ forall other stage,
        RandomDataModule.data other = RandomDataModule.data self ->
        exists m1',
          setup other stage g = Ok (m1', g')
          /\ train_split m1' = train_split m1
          /\ val_split m1' = val_split m1
          /\ test_split m1' = test_split m1.
Proof.
  intros n.
  destruct (setup_ok self stage1 g)
    as (d1 & m1 & Hsel1 & Hperm1 & Hset1 & _ & Hd1 & _ & Htr1 & Hva1 & Hte1).
  fold n in Hsel1, Hset1, Htr1, Hva1, Hte1.
  pose proof (Permutation_length Hperm1) as Hlen1. fold n in Hlen1.
  destruct (setup_ok m1 stage2 g)
    as (d2 & m2 & Hsel2 & Hperm2 & Hset2 & _ & Hd2 & _ & Htr2 & Hva2 & Hte2).
  rewrite Hd1, Hlen1 in *.
  pose proof (Permutation_length Hperm2) as Hlen2. rewrite Hlen1 in Hlen2.
  destruct (setup_lengths d1 Hlen1) as (L1 & L2 & L3).
  destruct (setup_lengths d2 Hlen2) as (K1 & K2 & K3).
  assert (Hrows : forall (m : RandomDataModule.t A) (d : Tensor A),
             length d = n ->
             holds_rows (train_split m) (rows_range 0 (train_end n) d) ->
             holds_rows (val_split m) (rows_range (train_end n) (val_end n) d) ->
             holds_rows (test_split m) (rows_range (val_end n) n d) ->
             all_rows m = d).
  { intros m d Hl H1 H2 H3. unfold all_rows.
    rewrite (holds_rows_dataset_rows H1), (holds_rows_dataset_rows H2),
      (holds_rows_dataset_rows H3).
    pose proof (rows_range_cover (a := train_end n) (b := val_end n) d) as C.
    rewrite Hl in C. apply C. apply split_ends_ordered. }
  exists m1, m2, (snd (randperm n g)).
  split; [exact Hset1|]. split; [exact Hset2|].
  split; [now rewrite Hd1|]. split; [now rewrite Hd1, Hd2|].
  rewrite (holds_rows_len Htr1), (holds_rows_len Hva1), (holds_rows_len Hte1),
    (holds_rows_len Htr2), (holds_rows_len Hva2), (holds_rows_len Hte2).
  rewrite L1, L2, L3, K1, K2, K3.
  repeat (split; [reflexivity|]).
  rewrite (Hrows m1 d1), (Hrows m2 d2) by assumption.
  split; [exact Hperm2|]. split; [exact Hperm1|].
  intros other stage Hother.
  destruct (setup_ok other stage g)
    as (d1' & m1' & Hsel' & _ & Hset' & _ & _ & _ & Htr' & Hva' & Hte').
  rewrite Hother in *. fold n in Hsel', Hset', Htr', Hva', Hte'.
  assert (d1' = d1) as -> by congruence.
  exists m1'. split; [exact Hset'|].
  repeat split; eapply holds_rows_unique; eassumption.
Qed.

(** C10.  [setup] never looks at its [stage] argument: from the same module
    and generator state any two stages give the same result, and for every
    stage that result is a complete reshuffle of the stored rows by a freshly
    drawn permutation followed by the re-split of all three partitions. *)
Theorem setup_ignores_stage
        (self : RandomDataModule.t A) (stage1 stage2 : option string)
        (g : generator) :
  let n := length (RandomDataModule.data self) in
  setup self stage1 g = setup self stage2 g
  /\ exists m',
      setup self stage1 g = Ok (m', snd (randperm n g))
      /\ index_select (RandomDataModule.data self) (fst (randperm n g))
         = Ok (RandomDataModule.data m')
      /\ holds_rows (train_split m')
           (rows_range 0 (train_end n) (RandomDataModule.data m'))
      /\ holds_rows (val_split m')
           (rows_range (train_end n) (val_end n) (RandomDataModule.data m'))
      /\ holds_rows (test_split m')
           (rows_range (val_end n) n (RandomDataModule.data m')).
Proof.
  intros n. split; [reflexivity|].
  destruct (setup_ok self stage1 g)
    as (data' & m' & Hsel & _ & Hset & _ & Hd & _ & Htr & Hva & Hte).
  exists m'. rewrite Hd. repeat split; assumption.
Qed.

End SetupProperties.

(** ** Before [setup], and the dataset on its own *)

(** C6 (as amended).  Before [setup] the six partition fields are [None],
    and each loader accessor hands [None] inputs and outputs to the loader
    constructor without any check of its own: for a raw dataset of at least
    one row and a worker count that is not negative it returns a loader, with
    the batch size recorded by [__init__].  The failure comes only when the
    dataset of that loader is asked for its length or for an item, and it is
    a [TypeError]. *)
Theorem accessors_before_setup {A : Type}
        (hp : RandomDataModule.hparams_t) (d : Tensor A) :
  let m := RandomDataModule.__init__ hp d in
  let workers := RandomDataModule.data_num_workers hp in
  let unset := VectorDataset.__init__ (A := A) None None in
  (0 <= workers)%Z -> (0 < length d)%nat ->
  (train_split m = unset /\ val_split m = unset /\ test_split m = unset)
  /\ RandomDataModule.train_dataloader m
     = Ok (DataLoader.mk unset workers (length d))
  /\ RandomDataModule.val_dataloader m
     = Ok (DataLoader.mk unset workers (length d))
  /\ RandomDataModule.test_dataloader m
     = Ok (DataLoader.mk unset workers (length d))
  /\ VectorDataset.__len__ unset = Raise TypeError
  /\ forall idx, VectorDataset.__getitem__ unset idx = Raise TypeError.
Proof.
  intros m workers unset Hworkers Hn.
  split; [repeat split|].
  unfold RandomDataModule.train_dataloader, RandomDataModule.val_dataloader,
    RandomDataModule.test_dataloader.
  cbn [m RandomDataModule.__init__ RandomDataModule.hparams
       RandomDataModule.batch_size RandomDataModule.train_input_data
       RandomDataModule.train_output_data RandomDataModule.val_input_data
       RandomDataModule.val_output_data RandomDataModule.test_input_data
       RandomDataModule.test_output_data].
  fold workers unset.
  rewrite (loader_init_ok unset Hworkers Hn).
  repeat split; reflexivity.
Qed.

(** C7 (as amended).  For a dataset of [len] input rows and as many output
    rows, [__getitem__] returns the pair of rows at [idx] when
    [0 <= idx < len]; for [-len <= idx < 0] it returns the pair at
    [idx + len], counting from the end; it raises [IndexError] exactly for
    [idx >= len] and [idx < -len]. *)
Theorem getitem_index_semantics {A : Type} (ins outs : Tensor A) (idx : Z) :
  length ins = length outs ->
  let ds := VectorDataset.__init__ (Some ins) (Some outs) in
  let len := Z.of_nat (length ins) in
  VectorDataset.__len__ ds = Ok (length ins)
  /\ ((0 <= idx < len)%Z ->
      exists x y,
        nth_error ins (Z.to_nat idx) = Some x
        /\ nth_error outs (Z.to_nat idx) = Some y
        /\ VectorDataset.__getitem__ ds idx = Ok (x, y))
  /\ ((- len <= idx < 0)%Z ->
      exists x y,
        nth_error ins (Z.to_nat (idx + len)) = Some x
        /\ nth_error outs (Z.to_nat (idx + len)) = Some y
        /\ VectorDataset.__getitem__ ds idx = Ok (x, y))
  /\ ((idx < - len \/ len <= idx)%Z ->
      VectorDataset.__getitem__ ds idx = Raise IndexError).
Proof.
  intros Hlen ds len. split; [reflexivity|].
  unfold VectorDataset.__getitem__, ds, VectorDataset.__init__, subscript.
  cbn [VectorDataset.input_data VectorDataset.output_data].
  repeat split.
  - intros Hidx.
    destruct (py_index_in_range ins (idx := idx)) as (x & Hx & ->);
      [exact Hidx|].
    destruct (py_index_in_range outs (idx := idx)) as (y & Hy & ->);
      [rewrite <- Hlen; exact Hidx|].
    now exists x, y.
  - intros Hidx.
    rewrite (py_index_negative ins), (py_index_negative outs)
      by (rewrite <- ?Hlen; exact Hidx).
    rewrite <- Hlen. fold len.
    destruct (py_index_in_range ins (idx := (idx + len)%Z)) as (x & Hx & ->);
      [unfold len in *; lia|].
    destruct (py_index_in_range outs (idx := (idx + len)%Z)) as (y & Hy & ->);
      [rewrite <- Hlen; unfold len in *; lia|].
    now exists x, y.
  - intros Hidx. now rewrite py_index_out_of_range.
Qed.

(** C8 (as amended).  The column split never fails: it returns, for every
    row, its first [input_dim] values as features and the remaining values as
    targets, so both results have as many rows as the data; when no row is
    wider than [input_dim] every target vector is empty.  Nothing checks the
    two row counts against each other: the length of a dataset is the row
    count of its inputs. *)
Theorem column_split_total {A : Type} (d : Tensor A) :
  let k := Z.to_nat RandomDataModule.input_dim in
  RandomDataModule._split_input_output_data d
  = Ok (map (firstn k) d, map (skipn k) d)
  /\ length (map (firstn k) d) = length d
  /\ length (map (skipn k) d) = length d
  /\ (Forall (fun row => (length row <= k)%nat) d ->
      map (firstn k) d = d /\ map (skipn k) d = map (fun _ => []) d)
  /\ forall ins outs : Tensor A,
      VectorDataset.__len__ (VectorDataset.__init__ (Some ins) (Some outs))
      = Ok (length ins).
Proof.
  intros k. split; [apply split_input_output_data_eq|].
  rewrite !length_map. repeat split.
  - induction H as [|row d' Hrow _ IH]; [reflexivity|].
    cbn [map]. now rewrite IH, firstn_all2.
  - induction H as [|row d' Hrow _ IH]; [reflexivity|].
    cbn [map]. now rewrite IH, skipn_all2.
Qed.

(** ** Concrete runs *)

(** C1, as stated, fails on ten rows: the train loader has batch size 10
    over a partition of 8 rows. *)
Lemma loader_batch_size_counterexample :
  exists m' g' dl rows,
    RandomDataModule.setup rotating_randperm sample_module None 1%nat
    = Ok (m', g')
    /\ RandomDataModule.train_dataloader m' = Ok dl
    /\ VectorDataset.__len__ (DataLoader.dataset dl) = Ok rows
    /\ DataLoader.batch_size dl = 10%nat
    /\ rows = 8%nat
    /\ DataLoader.batch_size dl <> rows.
Proof.
  do 4 eexists.
  split; [reflexivity|]. split; [reflexivity|]. split; [reflexivity|].
  cbn. repeat split. discriminate.
Qed.

(** C5, as stated, fails on ten rows: the test partition has one row, while
    [total_rows - train_end - val_end] is [10 - 8 - 9]. *)
Lemma test_range_size_counterexample :
  exists m' g' rows,
    RandomDataModule.setup rotating_randperm sample_module None 1%nat
    = Ok (m', g')
    /\ VectorDataset.__len__ (test_split m') = Ok rows
    /\ rows = 1%nat
    /\ (Z.of_nat 10 - RandomDataModule.train_samples_idx 10
        - RandomDataModule.val_samples_idx 10 = -7)%Z
    /\ Z.of_nat rows
       <> (Z.of_nat 10 - RandomDataModule.train_samples_idx 10
           - RandomDataModule.val_samples_idx 10)%Z.
Proof.
  do 3 eexists.
  split; [reflexivity|]. split; [reflexivity|].
  repeat split. discriminate.
Qed.

(** C6, as stated, fails: on a freshly built module the train loader
    accessor returns a loader and reading a partition returns [None]. *)
Lemma loader_before_setup_counterexample :
  RandomDataModule.train_dataloader sample_module
  = Ok (DataLoader.mk (VectorDataset.mk None None) 4 10)
  /\ RandomDataModule.train_input_data sample_module = None
  /\ ~ (exists e, RandomDataModule.train_dataloader sample_module = Raise e).
Proof.
  repeat split. intros [e He]. discriminate He.
Qed.

(** C7, as stated, fails: index [-1] lies outside [0, 2) and returns the
    last pair. *)
Lemma getitem_negative_index_counterexample :
  let ds := VectorDataset.__init__ (Some [[1]; [2]]%Z) (Some [[10]; [20]]%Z) in
  VectorDataset.__len__ ds = Ok 2%nat
  /\ VectorDataset.__getitem__ ds (-1) = Ok ([2]%Z, [20]%Z)
  /\ ~ (exists e, VectorDataset.__getitem__ ds (-1) = Raise e).
Proof.
  cbv zeta. repeat split. intros [e He]. discriminate He.
Qed.

(** C8, as stated, fails: rows of width 1 leave no target column and the
    split returns empty target vectors; a dataset of two input rows and one
    output row is built and measured without complaint. *)
Lemma column_split_counterexample :
  RandomDataModule._split_input_output_data [[5]; [6]]%Z
  = Ok ([[5]; [6]]%Z, [[]; []])
  /\ ~ (exists e,
          RandomDataModule._split_input_output_data [[5]; [6]]%Z = Raise e)
  /\ VectorDataset.__len__
       (VectorDataset.__init__ (Some [[1]; [2]]%Z) (Some [[3]]%Z))
     = Ok 2%nat.
Proof.
  repeat split. intros [e He]. discriminate He.
Qed.

(** C9, as stated, fails: with the generator in the same state before each
    call, the second [setup] on the same module leaves other rows in the
    train partition than the first. *)
Lemma setup_twice_counterexample :
  exists m1 g1 m2 g2,
    RandomDataModule.setup rotating_randperm sample_module None 1%nat
    = Ok (m1, g1)
    /\ RandomDataModule.setup rotating_randperm m1 None 1%nat = Ok (m2, g2)
    /\ RandomDataModule.train_input_data m1
       = Some [[1]; [2]; [3]; [4]; [5]; [6]; [7]; [8]]%Z
    /\ RandomDataModule.train_input_data m2
       = Some [[2]; [3]; [4]; [5]; [6]; [7]; [8]; [9]]%Z
    /\ RandomDataModule.train_input_data m1
       <> RandomDataModule.train_input_data m2.
Proof.
  do 4 eexists.
  split; [reflexivity|]. split; [reflexivity|].
  cbn. repeat split. discriminate.
Qed.

(** ** The theorems at the sample module *)

Lemma loader_batch_size_total_rows_witness :
  (forall n g, Permutation (fst (rotating_randperm n g)) (seq 0 n))
  /\ (0 <= 4)%Z /\ (0 < 10)%nat
  /\ exists m' g',
      RandomDataModule.setup rotating_randperm sample_module None 1%nat
      = Ok (m', g')
      /\ loader_shape (RandomDataModule.train_dataloader m') (train_split m')
                      4 10 8
      /\ loader_shape (RandomDataModule.val_dataloader m') (val_split m')
                      4 10 1
      /\ loader_shape (RandomDataModule.test_dataloader m') (test_split m')
                      4 10 1
      /\ (8 + 1 + 1 = 10)%nat.
Proof.
  split; [exact rotating_randperm_perm|].
  split; [lia|]. split; [lia|].
  apply (loader_batch_size_total_rows rotating_randperm
           rotating_randperm_perm sample_hparams sample_data None 1%nat).
  - cbn. lia.
  - cbn. lia.
Defined.

Lemma accessors_before_setup_witness :
  (0 <= 4)%Z /\ (0 < 10)%nat
  /\ RandomDataModule.train_dataloader sample_module
     = Ok (DataLoader.mk (VectorDataset.__init__ None None) 4 10)
  /\ VectorDataset.__len__ (VectorDataset.__init__ (A := Z) None None)
     = Raise TypeError.
Proof.
  split; [lia|]. split; [lia|].
  destruct (accessors_before_setup sample_hparams sample_data)
    as (_ & Htrain & _ & _ & Hlen & _).
  - cbn. lia.
  - cbn. lia.
  - split; [exact Htrain | exact Hlen].
Defined.

Lemma setup_row_ranges_witness :
  (forall n g, Permutation (fst (rotating_randperm n g)) (seq 0 n))
  /\ exists m' g',
      RandomDataModule.setup rotating_randperm sample_module None 1%nat
      = Ok (m', g')
      /\ length (RandomDataModule.data m') = 10%nat
      /\ holds_rows (train_split m')
           (rows_range 0 8 (RandomDataModule.data m'))
      /\ holds_rows (val_split m')
           (rows_range 8 9 (RandomDataModule.data m'))
      /\ holds_rows (test_split m')
           (rows_range 9 10 (RandomDataModule.data m')).
Proof.
  split; [exact rotating_randperm_perm|].
  exact (proj1 (proj2 (proj2 (proj2 (proj2
           (setup_row_ranges rotating_randperm rotating_randperm_perm
              sample_module None 1%nat)))))).
Defined.

Lemma setup_partitions_cover_witness :
  (forall n g, Permutation (fst (rotating_randperm n g)) (seq 0 n))
  /\ exists m' g',
      RandomDataModule.setup rotating_randperm sample_module None 1%nat
      = Ok (m', g')
      /\ VectorDataset.__len__ (train_split m') = Ok 8%nat
      /\ VectorDataset.__len__ (val_split m') = Ok 1%nat
      /\ VectorDataset.__len__ (test_split m') = Ok 1%nat
      /\ Permutation (all_rows m') sample_data.
Proof.
  split; [exact rotating_randperm_perm|].
  exact (proj2 (proj2 (proj2 (proj2 (proj2 (proj2
           (setup_partitions_cover rotating_randperm rotating_randperm_perm
              sample_module None 1%nat))))))).
Defined.

Lemma partition_referential_integrity_witness :
  (forall n g, Permutation (fst (rotating_randperm n g)) (seq 0 n))
  /\ exists m' g',
      RandomDataModule.setup rotating_randperm sample_module None 1%nat
      = Ok (m', g')
      /\ forall ds, In ds [train_split m'; val_split m'; test_split m'] ->
         exists len,
           VectorDataset.__len__ ds = Ok len
           /\ (forall idx, (0 <= idx < Z.of_nat len)%Z ->
                 exists row,
                   In row sample_data
                   /\ VectorDataset.__getitem__ ds idx
                      = Ok (firstn 1 row, skipn 1 row))
           /\ (forall idx x y,
                 VectorDataset.__getitem__ ds idx = Ok (x, y) ->
                 exists row,
                   In row sample_data
                   /\ x = firstn 1 row /\ y = skipn 1 row).
Proof.
  split; [exact rotating_randperm_perm|].
  exact (partition_referential_integrity rotating_randperm
           rotating_randperm_perm
           sample_module None 1%nat).
Defined.

Lemma test_range_absorbs_flooring_witness :
  (forall n g, Permutation (fst (rotating_randperm n g)) (seq 0 n))
  /\ exists m' g' rows,
      RandomDataModule.setup rotating_randperm sample_module None 1%nat
      = Ok (m', g')
      /\ VectorDataset.__len__ (test_split m') = Ok rows
      /\ Z.of_nat rows = (10 - 9)%Z
      /\ Z.of_nat rows = (10 - 8 - 1)%Z
      /\ (1 <= Z.of_nat rows)%Z.
Proof.
  split; [exact rotating_randperm_perm|].
  exact (test_range_absorbs_flooring rotating_randperm rotating_randperm_perm
           sample_module None 1%nat).
Defined.

Lemma setup_twice_same_seed_witness :
  (forall n g, Permutation (fst (rotating_randperm n g)) (seq 0 n))
  /\ exists m1 m2 g',
      RandomDataModule.setup rotating_randperm sample_module None 1%nat
      = Ok (m1, g')
      /\ RandomDataModule.setup rotating_randperm m1 (Some "fit"%string) 1%nat
         = Ok (m2, g')
      /\ VectorDataset.__len__ (train_split m2)
         = VectorDataset.__len__ (train_split m1)
      /\ Permutation (all_rows m2) (all_rows m1)
      /\ Permutation (all_rows m1) sample_data.
Proof.
  split; [exact rotating_randperm_perm|].
  destruct (setup_twice_same_seed rotating_randperm rotating_randperm_perm
              sample_module None (Some "fit"%string) 1%nat)
    as (m1 & m2 & g' & H1 & H2 & _ & _ & Htr & _ & _ & P2 & P1 & _).
  exists m1, m2, g'. repeat split; assumption.
Defined.

Lemma setup_ignores_stage_witness :
  (forall n g, Permutation (fst (rotating_randperm n g)) (seq 0 n))
  /\ RandomDataModule.setup rotating_randperm sample_module
       (Some "fit"%string) 1%nat
     = RandomDataModule.setup rotating_randperm sample_module
         (Some "test"%string) 1%nat.
Proof.
  split; [exact rotating_randperm_perm|].
  exact (proj1 (setup_ignores_stage rotating_randperm rotating_randperm_perm
                  sample_module
                  (Some "fit"%string) (Some "test"%string) 1%nat)).
Defined.

Lemma getitem_index_semantics_witness :
  length [[1]; [2]]%Z = length [[10]; [20]]%Z
  /\ exists x y,
      nth_error [[1]; [2]]%Z 1 = Some x
      /\ nth_error [[10]; [20]]%Z 1 = Some y
      /\ VectorDataset.__getitem__
           (VectorDataset.__init__ (Some [[1]; [2]]%Z) (Some [[10]; [20]]%Z))
           (-1)
         = Ok (x, y).
Proof.
  split; [reflexivity|].
  apply (getitem_index_semantics [[1]; [2]]%Z [[10]; [20]]%Z (-1) eq_refl).
  cbn. lia.
Defined.

(** * Further properties of the module *)

(** ** The binary64 split points *)

Lemma f64_scan_sound (k : N) :
  snd (N.iter k f64_scan_step (true, 0%Z)) = Z.of_N k
  /\ (f64_agree_below k = true ->
      forall z, (0 <= z < Z.of_N k)%Z -> f64_agrees_at z = true).
Proof.
  unfold f64_agree_below.
  induction k as [|k [IHz IHok]] using N.peano_ind.
  - split; [reflexivity|]. intros _ z Hz. cbn in Hz. lia.
  - rewrite N.iter_succ. unfold f64_scan_step at 1 3. cbn [fst snd].
    split; [rewrite IHz; lia|].
    intros Hok z Hz. apply andb_prop in Hok as [Hprev Hlast].
    destruct (Z.eq_dec z (Z.of_N k)) as [->|Hne].
    + now rewrite <- IHz.
    + apply IHok; [exact Hprev | lia].
Qed.

Lemma f64_agree_below_65536 : f64_agree_below 65536 = true.
Proof. vm_compute. reflexivity. Qed.

(** X1.  For every dataset of fewer than 65536 rows, evaluating
    [math.floor(0.8 * samples)] and [math.floor(0.1 * samples)] in binary64
    gives exactly the integers the exact products give: rounding never moves
    a split point. *)
Theorem f64_split_points_exact (n : nat) :
  (Z.of_nat n < 65536)%Z ->
  F64.train_samples_idx n = Some (RandomDataModule.train_samples_idx n)
  /\ F64.val_samples_idx n = Some (RandomDataModule.val_samples_idx n).
Proof.
  intros Hn.
  pose proof (proj2 (f64_scan_sound 65536) f64_agree_below_65536
                (Z.of_nat n)) as H.
  specialize (H ltac:(cbn; lia)).
  unfold f64_agrees_at in H.
  unfold F64.val_samples_idx, F64.train_samples_idx, F64.of_nat.
  destruct (F64.floor (F64.train_pct * _)) as [t|]; [|discriminate].
  destruct (F64.floor (F64.val_pct * _)) as [v|]; [|discriminate].
  apply andb_prop in H as [Ht Hv].
  apply Z.eqb_eq in Ht, Hv. subst t v.
  now rewrite val_samples_idx_div, train_samples_idx_div.
Qed.

(** ** The column split, further *)

(** X2.  The column split loses nothing and invents nothing: gluing every
    feature vector back to its target vector gives the data again, row for
    row; feature and target tensors have the row count of the data. *)
Theorem column_split_round_trip {A : Type} (d ins outs : Tensor A) :
  RandomDataModule._split_input_output_data d = Ok (ins, outs) ->
  map (fun p => (fst p ++ snd p)%list) (combine ins outs) = d
  /\ length ins = length d /\ length outs = length d.
Proof.
  rewrite split_input_output_data_eq. intros [= <- <-].
  rewrite !length_map. split; [apply glue_columns | now split].
Qed.

(** X3.  Row by row, the feature vector has one value when the row has any
    and none when the row is empty, and the target vector has one value less
    than the row; on data of width [w >= 1] the features have width 1 and the
    targets width [w - 1]. *)
Theorem column_split_widths {A : Type} (d ins outs : Tensor A) (i : nat)
        (row : list A) :
  RandomDataModule._split_input_output_data d = Ok (ins, outs) ->
  nth_error d i = Some row ->
  exists feature target,
    nth_error ins i = Some feature
    /\ nth_error outs i = Some target
    /\ length feature = Nat.min 1 (length row)
    /\ length target = (length row - 1)%nat.
Proof.
  rewrite split_input_output_data_eq. intros [= <- <-] Hrow.
  exists (firstn 1 row), (skipn 1 row).
  rewrite !nth_error_map, Hrow. cbn [option_map].
  now rewrite length_firstn, length_skipn.
Qed.

(** ** Datasets whose inputs and outputs disagree *)

(** X4.  The length of a dataset is the row count of its inputs alone: when
    the outputs have fewer rows, an index that [__len__] allows but the
    outputs do not have raises [IndexError]. *)
Theorem getitem_short_outputs {A : Type} (ins outs : Tensor A) (idx : Z) :
  (Z.of_nat (length outs) <= idx < Z.of_nat (length ins))%Z ->
  let ds := VectorDataset.__init__ (Some ins) (Some outs) in
  VectorDataset.__len__ ds = Ok (length ins)
  /\ VectorDataset.__getitem__ ds idx = Raise IndexError.
Proof.
  intros Hidx ds. split; [reflexivity|].
  unfold VectorDataset.__getitem__, ds, VectorDataset.__init__, subscript.
  cbn [VectorDataset.input_data VectorDataset.output_data].
  destruct (py_index_in_range ins (idx := idx)) as (x & _ & ->); [lia|].
  cbn [bind]. rewrite py_index_out_of_range by lia. reflexivity.
Qed.

(** X5.  Errors of [__getitem__] come in the order the two tensors are
    subscripted: missing inputs raise [TypeError] whatever the index and the
    outputs; with inputs present an index out of their range raises
    [IndexError] even when the outputs are missing; missing outputs raise
    [TypeError] only for an index the inputs accept. *)
Theorem getitem_error_order {A : Type}
        (ins : Tensor A) (outs : option (Tensor A)) (idx : Z) :
  let len := Z.of_nat (length ins) in
  VectorDataset.__getitem__ (VectorDataset.__init__ None outs) idx
  = Raise TypeError
  /\ ((idx < - len \/ len <= idx)%Z ->
      VectorDataset.__getitem__ (VectorDataset.__init__ (Some ins) outs) idx
      = Raise IndexError)
  /\ ((- len <= idx < len)%Z ->
      VectorDataset.__getitem__ (VectorDataset.__init__ (Some ins) None) idx
      = Raise TypeError).
Proof.
  intros len. split; [reflexivity|].
  unfold VectorDataset.__getitem__, VectorDataset.__init__, subscript.
  cbn [VectorDataset.input_data VectorDataset.output_data].
  split.
  - intros Hidx. now rewrite py_index_out_of_range.
  - intros Hidx.
    destruct (Z_lt_ge_dec idx 0) as [Hneg|Hpos].
    + rewrite py_index_negative by (fold len; lia).
      destruct (py_index_in_range ins (idx := (idx + Z.of_nat (length ins))%Z))
        as (x & _ & ->); [fold len; lia | reflexivity].
    + destruct (py_index_in_range ins (idx := idx)) as (x & _ & ->);
        [fold len; lia | reflexivity].
Qed.

(** ** Reading rows through an index list *)

Lemma index_select_nth {X : Type} (l l' : list X) (p : list nat) (i j : nat) :
  index_select l p = Ok l' ->
  nth_error p i = Some j ->
  nth_error l' i = nth_error l j.
Proof.
  revert l' i. induction p as [|k p IH]; intros l' i Hsel Hi.
  - destruct i; discriminate.
  - cbn [index_select] in Hsel.
    destruct (nth_error l k) as [x|] eqn:Ek; [|discriminate].
    destruct (index_select l p) as [xs|] eqn:Es; [|discriminate].
    cbn [bind] in Hsel. injection Hsel as <-.
    destruct i as [|i]; cbn [nth_error] in *.
    + injection Hi as <-. now rewrite Ek.
    + now apply IH.
Qed.

Lemma index_select_length {X : Type} (l l' : list X) (p : list nat) :
  index_select l p = Ok l' -> length l' = length p.
Proof.
  revert l'. induction p as [|k p IH]; intros l' Hsel; cbn in Hsel.
  - now injection Hsel as <-.
  - destruct (nth_error l k); [|discriminate].
    destruct (index_select l p) as [xs|]; [|discriminate].
    cbn in Hsel. injection Hsel as <-. cbn. now rewrite (IH xs).
Qed.

Lemma index_select_compose {X : Type} (l l1 l2 : list X) (p q : list nat) :
  index_select l p = Ok l1 ->
  index_select l1 q = Ok l2 ->
  index_select l (map (fun i => nth i p 0%nat) q) = Ok l2.
Proof.
  intros Hp. revert l2. induction q as [|i q IH]; intros l2 Hq.
  - exact Hq.
  - cbn [index_select] in Hq.
    destruct (nth_error l1 i) as [x|] eqn:Ei; [|discriminate].
    destruct (index_select l1 q) as [xs|] eqn:Es; [|discriminate].
    cbn [bind] in Hq. injection Hq as <-.
    cbn [map index_select].
    assert (Hlt : (i < length p)%nat).
    { rewrite <- (@index_select_length _ l l1 p Hp).
      apply nth_error_Some. now rewrite Ei. }
    rewrite <- (@index_select_nth _ l l1 p i _ Hp (nth_error_nth' p 0%nat Hlt)).
    rewrite Ei, (IH xs eq_refl). reflexivity.
Qed.

(** ** The sizes of the three partitions *)

Lemma train_end_div (n : nat) : train_end n = (8 * n / 10)%nat.
Proof.
  unfold train_end. rewrite train_samples_idx_div.
  apply Nat2Z.inj. rewrite Z2Nat.id by (Z.div_mod_to_equations; lia).
  now rewrite Nat2Z.inj_div, Nat2Z.inj_mul.
Qed.

Lemma val_end_div (n : nat) : val_end n = (8 * n / 10 + n / 10)%nat.
Proof.
  unfold val_end. rewrite val_samples_idx_div.
  apply Nat2Z.inj. rewrite Z2Nat.id by (Z.div_mod_to_equations; lia).
  now rewrite Nat2Z.inj_add, !Nat2Z.inj_div, Nat2Z.inj_mul.
Qed.

(** ** [setup], row by row *)

From Stdlib Require Import ZifyNat.

Section SetupFurther.
Context {A : Type} {generator : Type}.
Variable randperm : nat -> generator -> list nat * generator.
Hypothesis randperm_perm :
  forall n g, Permutation (fst (randperm n g)) (seq 0 n).

Local Abbreviation setup := (RandomDataModule.setup randperm).

Lemma setup_summary (self : RandomDataModule.t A) (stage : option string)
      (g : generator) :
  let n := length (RandomDataModule.data self) in
  exists m',
    setup self stage g = Ok (m', snd (randperm n g))
    /\ RandomDataModule.hparams m' = RandomDataModule.hparams self
    /\ RandomDataModule.batch_size m' = RandomDataModule.batch_size self
    /\ index_select (RandomDataModule.data self) (fst (randperm n g))
       = Ok (RandomDataModule.data m')
    /\ Permutation (RandomDataModule.data m') (RandomDataModule.data self)
    /\ all_rows m' = RandomDataModule.data m'
    /\ VectorDataset.__len__ (train_split m') = Ok (8 * n / 10)%nat
    /\ VectorDataset.__len__ (val_split m') = Ok (n / 10)%nat
    /\ VectorDataset.__len__ (test_split m')
       = Ok (n - 8 * n / 10 - n / 10)%nat.
Proof.
  intros n.
  destruct (setup_ok randperm randperm_perm self stage g)
    as (data' & m' & Hsel & Hperm & Hset & Hhp & Hd & Hbs & Htr & Hva & Hte).
  fold n in Hsel, Hset, Htr, Hva, Hte.
  pose proof (Permutation_length Hperm) as Hlen. fold n in Hlen.
  destruct (setup_lengths data' Hlen) as (L1 & L2 & L3).
  exists m'. rewrite Hd.
  repeat (split; [assumption|]).
  split.
  { unfold all_rows.
    rewrite (holds_rows_dataset_rows Htr), (holds_rows_dataset_rows Hva),
      (holds_rows_dataset_rows Hte).
    pose proof (rows_range_cover (a := train_end n) (b := val_end n) data')
      as C.
    rewrite Hlen in C. apply C. apply split_ends_ordered. }
  rewrite (holds_rows_len Htr), (holds_rows_len Hva), (holds_rows_len Hte).
  rewrite L1, L2, L3, val_end_div, train_end_div.
  repeat split; f_equal; lia.
Qed.

(** X6.  Which raw row is served where: the row that the drawn permutation
    puts at position [i] of the shuffle is item [i] of the train dataset when
    [i < train_end], item [i - train_end] of the validation dataset when
    [train_end <= i < val_end], and item [i - val_end] of the test dataset
    otherwise - split into its first value and the rest. *)
Theorem partition_row_origin
        (self : RandomDataModule.t A) (stage : option string) (g : generator) :
  let n := length (RandomDataModule.data self) in
  let p := fst (randperm n g) in
  exists m' g',
    setup self stage g = Ok (m', g')
    /\ forall (i j : nat) (row : list A),
        nth_error p i = Some j ->
        nth_error (RandomDataModule.data self) j = Some row ->
        ((i < train_end n)%nat ->
         VectorDataset.__getitem__ (train_split m') (Z.of_nat i)
         = Ok (firstn 1 row, skipn 1 row))
        /\ ((train_end n <= i < val_end n)%nat ->
            VectorDataset.__getitem__ (val_split m')
              (Z.of_nat (i - train_end n))
            = Ok (firstn 1 row, skipn 1 row))
        /\ ((val_end n <= i)%nat ->
            VectorDataset.__getitem__ (test_split m')
              (Z.of_nat (i - val_end n))
            = Ok (firstn 1 row, skipn 1 row)).
Proof.
  intros n p.
  destruct (setup_ok randperm randperm_perm self stage g)
    as (data' & m' & Hsel & Hperm & Hset & _ & _ & _ & Htr & Hva & Hte).
  fold n in Hsel, Hset, Htr, Hva, Hte. fold p in Hsel.
  pose proof (Permutation_length Hperm) as Hlen. fold n in Hlen.
  destruct (setup_lengths data' Hlen) as (L1 & L2 & L3).
  pose proof (split_ends_ordered n) as Hends.
  exists m', (snd (randperm n g)). split; [exact Hset|].
  intros i j row Hi Hj.
  assert (Hrow : nth_error data' i = Some row)
    by (rewrite (index_select_nth _ p i Hsel Hi); exact Hj).
  assert (Hin : (i < n)%nat).
  { rewrite <- Hlen. apply nth_error_Some. now rewrite Hrow. }
  assert (Hitem : forall ds a b k,
             holds_rows ds (rows_range a b data') ->
             (a <= b <= n)%nat -> (k < b - a)%nat -> (a + k)%nat = i ->
             VectorDataset.__getitem__ ds (Z.of_nat k)
             = Ok (firstn 1 row, skipn 1 row)).
  { intros ds a b k Hds Hab Hk Hak.
    destruct (holds_rows_getitem (idx := Z.of_nat k) Hds)
      as (row' & Hrow' & Hget).
    - rewrite rows_range_length by lia. lia.
    - rewrite Nat2Z.id, rows_range_nth_error, Hak, Hrow in Hrow' by exact Hk.
      injection Hrow' as <-. exact Hget. }
  repeat split; intros Hrange.
  - apply (Hitem _ 0%nat (train_end n)); [exact Htr|lia..].
  - apply (Hitem _ (train_end n) (val_end n)); [exact Hva|lia..].
  - apply (Hitem _ (val_end n) n); [exact Hte|lia..].
Qed.

(** X7.  After [setup] the three datasets, glued back row by row and laid
    end to end in the order train, validation, test, are exactly the rows
    the module now stores, in the stored order. *)
Theorem partitions_glue_to_data
        (self : RandomDataModule.t A) (stage : option string) (g : generator) :
  exists m' g',
    setup self stage g = Ok (m', g')
    /\ all_rows m' = RandomDataModule.data m'
    /\ index_select (RandomDataModule.data self)
         (fst (randperm (length (RandomDataModule.data self)) g))
       = Ok (RandomDataModule.data m').
Proof.
  destruct (setup_summary self stage g)
    as (m' & Hset & _ & _ & Hsel & _ & Hall & _).
  exists m', (snd (randperm (length (RandomDataModule.data self)) g)).
  now repeat split.
Qed.

(** X8.  However many times [setup] is called on a module built by
    [__init__], every call succeeds, the hyper-parameters and the batch size
    recorded at construction never change, and the module always stores a
    permutation of the raw rows; once [setup] has run at least once, the
    partitions have [8n/10], [n/10] and the remaining rows and together are
    the stored rows. *)
Theorem repeated_setup_invariant
        (hp : RandomDataModule.hparams_t) (d : Tensor A)
        (stages : list (option string)) (g : generator) :
  let n := length d in
  exists m g',
    run_setups randperm stages (RandomDataModule.__init__ hp d) g = Ok (m, g')
    /\ RandomDataModule.hparams m = hp
    /\ RandomDataModule.batch_size m = n
    /\ Permutation (RandomDataModule.data m) d
    /\ (stages <> [] ->
        all_rows m = RandomDataModule.data m
        /\ VectorDataset.__len__ (train_split m) = Ok (8 * n / 10)%nat
        /\ VectorDataset.__len__ (val_split m) = Ok (n / 10)%nat
        /\ VectorDataset.__len__ (test_split m)
           = Ok (n - 8 * n / 10 - n / 10)%nat).
Proof.
  intros n.
  assert (Hinv : forall stages (m0 : RandomDataModule.t A) g0,
             RandomDataModule.hparams m0 = hp ->
             RandomDataModule.batch_size m0 = n ->
             Permutation (RandomDataModule.data m0) d ->
             exists m g',
               run_setups randperm stages m0 g0 = Ok (m, g')
               /\ RandomDataModule.hparams m = hp
               /\ RandomDataModule.batch_size m = n
               /\ Permutation (RandomDataModule.data m) d
               /\ (stages <> [] ->
                   all_rows m = RandomDataModule.data m
                   /\ VectorDataset.__len__ (train_split m)
                      = Ok (8 * n / 10)%nat
                   /\ VectorDataset.__len__ (val_split m) = Ok (n / 10)%nat
                   /\ VectorDataset.__len__ (test_split m)
                      = Ok (n - 8 * n / 10 - n / 10)%nat)).
  { clear g stages.
    induction stages as [|stage rest IH]; intros m0 g0 Hhp Hbs Hp.
    - exists m0, g0. cbn [run_setups]. now repeat split.
    - destruct (setup_summary m0 stage g0)
        as (m1 & Hset & Hhp1 & Hbs1 & _ & Hp1 & Hall & L1 & L2 & L3).
      rewrite (Permutation_length Hp) in Hset, L1, L2, L3.
      fold n in Hset, L1, L2, L3.
      destruct (IH m1 (snd (randperm n g0)))
        as (m & g' & Hrun & H1 & H2 & H3 & H4);
        [congruence | congruence | now rewrite Hp1 |].
      exists m, g'. cbn [run_setups]. rewrite Hset. cbn [bind].
      split; [exact Hrun|]. repeat (split; [assumption|]).
      intros _. destruct rest as [|stage' rest'].
      + cbn [run_setups] in Hrun. injection Hrun as <- <-.
        now repeat split.
      + apply H4. discriminate. }
  apply Hinv; reflexivity || apply Permutation_refl.
Qed.

(** X9.  Two calls of [setup] in a row act like one call that draws both
    permutations and shuffles by the first read through the second: the
    module, its partitions and the generator state come out the same. *)
Theorem setup_twice_composes
        (self : RandomDataModule.t A) (stage1 stage2 stage : option string)
        (g : generator) :
  run_setups randperm [stage1; stage2] self g
  = RandomDataModule.setup (twice_randperm randperm) self stage g.
Proof.
  set (n := length (RandomDataModule.data self)).
  pose proof (randperm_perm n g) as Pp.
  destruct (randperm n g) as [p g1] eqn:Ep. cbn [fst] in Pp.
  pose proof (randperm_perm n g1) as Pq.
  destruct (randperm n g1) as [q g2] eqn:Eq. cbn [fst] in Pq.
  destruct (index_select_permutation (RandomDataModule.data self) (indices := p))
    as (d1 & Hsel1 & Hperm1); [exact Pp|].
  pose proof (Permutation_length Hperm1) as Hlen1. fold n in Hlen1.
  destruct (index_select_permutation d1 (indices := q))
    as (d2 & Hsel2 & Hperm2); [now rewrite Hlen1|].
  pose proof (@index_select_compose _ _ _ _ _ _ Hsel1 Hsel2) as Hsel12.
  cbn [run_setups].
  unfold RandomDataModule.setup at 1. fold n. rewrite Ep, Hsel1.
  cbn [bind]. rewrite !split_input_output_data_eq. cbv beta iota.
  cbn [bind]. cbv beta iota.
  unfold RandomDataModule.setup at 1.
  cbn [RandomDataModule.data RandomDataModule.hparams
       RandomDataModule.batch_size].
  rewrite Hlen1, Eq, Hsel2. cbn [bind].
  rewrite !split_input_output_data_eq. cbv beta iota. cbn [bind].
  cbv beta iota.
  unfold RandomDataModule.setup, twice_randperm. fold n.
  rewrite Ep, Eq, Hsel12. cbn [bind].
  rewrite !split_input_output_data_eq. reflexivity.
Qed.

(** X10.  Which partitions are empty depends on the row count alone: the
    train partition is empty exactly for datasets of at most one row, the
    validation partition exactly for fewer than ten rows, and the test
    partition only when there is no row at all - a single row goes to
    test. *)
Theorem partition_emptiness
        (self : RandomDataModule.t A) (stage : option string) (g : generator) :
  let n := length (RandomDataModule.data self) in
  exists m' g' train_rows val_rows test_rows,
    setup self stage g = Ok (m', g')
    /\ VectorDataset.__len__ (train_split m') = Ok train_rows
    /\ VectorDataset.__len__ (val_split m') = Ok val_rows
    /\ VectorDataset.__len__ (test_split m') = Ok test_rows
    /\ (train_rows = 0 <-> n <= 1)%nat
    /\ (val_rows = 0 <-> n <= 9)%nat
    /\ (test_rows = 0 <-> n = 0)%nat.
Proof.
  intros n.
  destruct (setup_summary self stage g)
    as (m' & Hset & _ & _ & _ & _ & _ & L1 & L2 & L3).
  fold n in Hset, L1, L2, L3.
  exists m', (snd (randperm n g)).
  exists (8 * n / 10)%nat, (n / 10)%nat, (n - 8 * n / 10 - n / 10)%nat.
  repeat (split; [assumption|]).
  repeat split; zify; Z.div_mod_to_equations; lia.
Qed.

(** X11.  The partition sizes follow the fractions to within the flooring:
    train has the whole rows of 80%, validation the whole rows of 10%, and
    test has at least 10% and at most 1.4 rows more. *)
Theorem partition_size_bounds
        (self : RandomDataModule.t A) (stage : option string) (g : generator) :
  let n := length (RandomDataModule.data self) in
  exists m' g' train_rows val_rows test_rows,
    setup self stage g = Ok (m', g')
    /\ VectorDataset.__len__ (train_split m') = Ok train_rows
    /\ VectorDataset.__len__ (val_split m') = Ok val_rows
    /\ VectorDataset.__len__ (test_split m') = Ok test_rows
    /\ (5 * train_rows <= 4 * n < 5 * train_rows + 5)%nat
    /\ (10 * val_rows <= n < 10 * val_rows + 10)%nat
    /\ (n <= 10 * test_rows <= n + 14)%nat
    /\ (train_rows + val_rows + test_rows = n)%nat.
Proof.
  intros n.
  destruct (setup_summary self stage g)
    as (m' & Hset & _ & _ & _ & _ & _ & L1 & L2 & L3).
  fold n in Hset, L1, L2, L3.
  exists m', (snd (randperm n g)).
  exists (8 * n / 10)%nat, (n / 10)%nat, (n - 8 * n / 10 - n / 10)%nat.
  repeat (split; [assumption|]).
  repeat split; zify; Z.div_mod_to_equations; lia.
Qed.

(** X12.  On a raw dataset of no rows [setup] succeeds and leaves three
    datasets of length 0, from which every index raises [IndexError]; but
    the batch size recorded at construction is 0, so every loader accessor
    raises [ValueError]. *)
Theorem setup_no_rows
        (hp : RandomDataModule.hparams_t) (stage : option string)
        (g : generator) :
  let empty := VectorDataset.__init__ (A := A) (Some []) (Some []) in
  exists m' g',
    setup (RandomDataModule.__init__ (A := A) hp []) stage g = Ok (m', g')
    /\ train_split m' = empty /\ val_split m' = empty /\ test_split m' = empty
    /\ VectorDataset.__len__ empty = Ok 0%nat
    /\ (forall idx, VectorDataset.__getitem__ empty idx = Raise IndexError)
    /\ RandomDataModule.train_dataloader m' = Raise ValueError
    /\ RandomDataModule.val_dataloader m' = Raise ValueError
    /\ RandomDataModule.test_dataloader m' = Raise ValueError.
Proof.
  intros empty.
  destruct (setup_ok randperm randperm_perm
              (RandomDataModule.__init__ (A := A) hp []) stage g)
    as (data' & m' & _ & Hperm & Hset & _ & _ & Hbs & Htr & Hva & Hte).
  cbn [RandomDataModule.__init__ RandomDataModule.data
       RandomDataModule.batch_size length] in *.
  apply Permutation_sym, Permutation_nil in Hperm. subst data'.
  assert (Hempty : forall (ds : VectorDataset.t A) a b,
             holds_rows ds (rows_range a b []) -> ds = empty).
  { intros ds a b H. apply holds_rows_fields in H as [Hi Ho].
    unfold rows_range in Hi, Ho. rewrite skipn_nil, firstn_nil in Hi, Ho.
    destruct ds. cbn in *. now subst. }
  exists m', (snd (randperm 0 g)). split; [exact Hset|].
  rewrite (Hempty _ _ _ Htr), (Hempty _ _ _ Hva), (Hempty _ _ _ Hte).
  repeat (split; [reflexivity|]).
  split.
  { intros idx. unfold VectorDataset.__getitem__, empty, subscript.
    cbn [VectorDataset.__init__ VectorDataset.input_data].
    rewrite py_index_out_of_range by (cbn [length]; lia). reflexivity. }
  now apply loaders_of_no_rows.
Qed.

End SetupFurther.

(** ** [main] *)

Lemma index_select_map_seq {X : Type} (f : nat -> X) (n : nat) (p : list nat) :
  Forall (fun i => (i < n)%nat) p ->
  index_select (map f (seq 0 n)) p = Ok (map f p).
Proof.
  induction 1 as [|i p Hi _ IH]; [reflexivity|].
  cbn [index_select map].
  rewrite nth_error_map, (nth_error_nth' _ 0%nat)
    by (now rewrite length_seq).
  rewrite seq_nth by exact Hi. cbn [option_map Nat.add].
  now rewrite IH.
Qed.

Section MainProperties.
Context {A : Type} {generator : Type}.
Variable randperm : nat -> generator -> list nat * generator.
Hypothesis randperm_perm :
  forall n g, Permutation (fst (randperm n g)) (seq 0 n).
Variable manual_seed : Z -> generator.
Variable randn_value : generator -> nat -> A.
Variable randn_next : generator -> nat -> generator.
Variable linspace_value : Z -> Z -> nat -> nat -> A.
Variables sin cos : A -> A.
Variables add mul : A -> A -> A.
Variables freq noise_scale : A.

Local Abbreviation row :=
  (sample_row manual_seed randn_value randn_next linspace_value
              sin cos add mul freq noise_scale).
Local Abbreviation sinusoidal_data :=
  (main_sinusoidal_data randperm manual_seed randn_value randn_next
                        linspace_value sin cos add mul freq noise_scale).
Local Abbreviation data_module :=
  (main_data_module randperm manual_seed randn_value randn_next
                    linspace_value sin cos add mul freq noise_scale).

Lemma main_sinusoidal_data_rows :
  exists (js : list nat) g,
    sinusoidal_data = Ok (map row js, g)
    /\ length js = 10%nat
    /\ NoDup js
    /\ Forall (fun j => (j < 100)%nat) js.
Proof.
  unfold main_sinusoidal_data.
  cbv beta zeta iota
      delta [size randn unsqueeze_1 linspace tensor_add tensor_map cat_1
             map seq combine length fst snd app Nat.mul Nat.add].
  set (g2 := randn_next (randn_next (manual_seed 3) 100) 100).
  match goal with
  | |- context [index_select ?t _] => change t with (map row (seq 0 100))
  end.
  pose proof (randperm_perm 100 g2) as Hp.
  destruct (randperm 100 g2) as [p g3]. cbn [fst] in Hp.
  assert (Hlt : Forall (fun i => (i < 100)%nat) p).
  { apply Forall_forall. intros i Hi.
    apply (Permutation_in _ Hp), in_seq in Hi. lia. }
  rewrite (index_select_map_seq _ Hlt). cbn [bind].
  assert (Hlen : length p = 100%nat)
    by (rewrite (Permutation_length Hp); apply length_seq).
  exists (firstn 10 p), g3. split; [|split; [|split]].
  - f_equal. f_equal.
    rewrite py_slice_range by (rewrite ?length_map, ?Hlen; lia).
    unfold rows_range. cbn [skipn Z.to_nat Pos.to_nat Pos.iter_op Nat.add
                            Nat.sub].
    change (Z.to_nat 10 - Z.to_nat 0)%nat with 10%nat.
    apply firstn_map.
  - apply firstn_length_le. lia.
  - assert (Hnd : NoDup p).
    { apply (Permutation_NoDup (Permutation_sym Hp)), seq_NoDup. }
    rewrite <- (firstn_skipn 10 p) in Hnd.
    now apply NoDup_app_remove_r in Hnd.
  - rewrite <- (firstn_skipn 10 p) in Hlt.
    now apply Forall_app in Hlt.
Qed.

(** X13.  The module [main] builds and sets up holds ten rows, the rows of
    ten different samples out of the hundred generated, split 8/1/1 with
    batch size 10; every pair any of its datasets returns is the abscissa of
    one sample together with the noisy sine and the noisy cosine of that
    same sample. *)
Theorem main_training_pairs :
  exists dm g,
    data_module = Ok (dm, g)
    /\ RandomDataModule.batch_size dm = 10%nat
    /\ VectorDataset.__len__ (train_split dm) = Ok 8%nat
    /\ VectorDataset.__len__ (val_split dm) = Ok 1%nat
    /\ VectorDataset.__len__ (test_split dm) = Ok 1%nat
    /\ (exists js,
          Permutation (all_rows dm) (map row js)
          /\ NoDup js /\ length js = 10%nat
          /\ Forall (fun j => (j < 100)%nat) js)
    /\ forall ds, In ds [train_split dm; val_split dm; test_split dm] ->
       forall idx x y,
         VectorDataset.__getitem__ ds idx = Ok (x, y) ->
         exists i,
           (i < 100)%nat /\ (x ++ y)%list = row i /\ length x = 1%nat.
Proof.
  destruct main_sinusoidal_data_rows as (js & g & Hdata & Hlen & Hnd & Hlt).
  unfold main_data_module. rewrite Hdata. cbn [bind].
  set (m0 := RandomDataModule.__init__ _ _).
  assert (Hn : length (RandomDataModule.data m0) = 10%nat)
    by (cbn; now rewrite length_map).
  destruct (setup_summary randperm randperm_perm m0 None g)
    as (dm & Hset & _ & Hbs & _ & Hperm & Hall & L1 & L2 & L3).
  destruct (setup_ok randperm randperm_perm m0 None g)
    as (data' & dm' & _ & Hperm' & Hset' & _ & _ & _ & Htr & Hva & Hte).
  rewrite Hset in Hset'. injection Hset' as <-.
  rewrite Hn in *.
  exists dm, (snd (randperm 10 g)). split; [exact Hset|].
  split; [rewrite Hbs; cbn; now rewrite length_map|].
  split; [exact L1|]. split; [exact L2|]. split; [exact L3|].
  split.
  { exists js. rewrite Hall. now repeat split. }
  assert (Hrow : forall ds a b idx x y,
             holds_rows ds (rows_range a b data') ->
             VectorDataset.__getitem__ ds idx = Ok (x, y) ->
             exists i,
               (i < 100)%nat /\ (x ++ y)%list = row i /\ length x = 1%nat).
  { intros ds a b idx x y Hds Hget.
    destruct (holds_rows_getitem_ok _ Hds Hget) as (r & Hr & -> & ->).
    apply rows_range_In in Hr. apply (Permutation_in _ Hperm') in Hr.
    cbn [m0 RandomDataModule.__init__ RandomDataModule.data] in Hr.
    apply in_map_iff in Hr as (i & <- & Hi).
    exists i. split; [|split].
    - rewrite Forall_forall in Hlt. now apply Hlt.
    - apply firstn_skipn.
    - reflexivity. }
  intros ds [<-|[<-|[<-|[]]]] idx x y Hget;
    (eapply Hrow; [|exact Hget]; eassumption).
Qed.

End MainProperties.

(** ** The further properties at concrete inputs *)

Lemma f64_split_points_exact_witness :
  (Z.of_nat 1000 < 65536)%Z
  /\ F64.train_samples_idx 1000 = Some 800%Z
  /\ F64.val_samples_idx 1000 = Some 900%Z.
Proof.
  split; [cbn; lia|].
  apply (f64_split_points_exact 1000). cbn. lia.
Defined.

Lemma column_split_round_trip_witness :
  RandomDataModule._split_input_output_data [[1; 2; 3]; [4; 5; 6]]%Z
  = Ok ([[1]; [4]]%Z, [[2; 3]; [5; 6]]%Z)
  /\ map (fun p => (fst p ++ snd p)%list)
         (combine [[1]; [4]]%Z [[2; 3]; [5; 6]]%Z)
     = [[1; 2; 3]; [4; 5; 6]]%Z.
Proof.
  split; [reflexivity|].
  apply (@column_split_round_trip Z [[1; 2; 3]; [4; 5; 6]]%Z
           [[1]; [4]]%Z [[2; 3]; [5; 6]]%Z eq_refl).
Defined.

Lemma column_split_widths_witness :
  RandomDataModule._split_input_output_data [[1; 2; 3]; [4; 5; 6]]%Z
  = Ok ([[1]; [4]]%Z, [[2; 3]; [5; 6]]%Z)
  /\ nth_error [[1; 2; 3]; [4; 5; 6]]%Z 1 = Some [4; 5; 6]%Z
  /\ exists feature target,
      nth_error [[1]; [4]]%Z 1 = Some feature
      /\ nth_error [[2; 3]; [5; 6]]%Z 1 = Some target
      /\ length feature = 1%nat /\ length target = 2%nat.
Proof.
  split; [reflexivity|]. split; [reflexivity|].
  exact (@column_split_widths Z [[1; 2; 3]; [4; 5; 6]]%Z [[1]; [4]]%Z
           [[2; 3]; [5; 6]]%Z 1 [4; 5; 6]%Z eq_refl eq_refl).
Defined.

Lemma getitem_short_outputs_witness :
  (Z.of_nat (length [[3]]%Z) <= 1 < Z.of_nat (length [[1]; [2]]%Z))%Z
  /\ VectorDataset.__len__
       (VectorDataset.__init__ (Some [[1]; [2]]%Z) (Some [[3]]%Z))
     = Ok 2%nat
  /\ VectorDataset.__getitem__
       (VectorDataset.__init__ (Some [[1]; [2]]%Z) (Some [[3]]%Z)) 1
     = Raise IndexError.
Proof.
  split; [cbn; lia|].
  apply (@getitem_short_outputs Z [[1]; [2]]%Z [[3]]%Z 1%Z). cbn. lia.
Defined.

Lemma partition_row_origin_witness :
  (forall n g, Permutation (fst (rotating_randperm n g)) (seq 0 n))
  /\ exists m' g',
      RandomDataModule.setup rotating_randperm sample_module None 1%nat
      = Ok (m', g')
      /\ VectorDataset.__getitem__ (val_split m') 0
         = Ok ([9]%Z, [109; 209]%Z).
Proof.
  split; [exact rotating_randperm_perm|].
  destruct (partition_row_origin rotating_randperm rotating_randperm_perm
              sample_module None 1%nat) as (m' & g' & Hset & Hrows).
  exists m', g'. split; [exact Hset|].
  exact (proj1 (proj2 (Hrows 8%nat 9%nat [9; 109; 209]%Z eq_refl eq_refl))
           ltac:(cbn; lia)).
Defined.

Lemma partitions_glue_to_data_witness :
  (forall n g, Permutation (fst (rotating_randperm n g)) (seq 0 n))
  /\ exists m' g',
      RandomDataModule.setup rotating_randperm sample_module None 1%nat
      = Ok (m', g')
      /\ all_rows m' = RandomDataModule.data m'.
Proof.
  split; [exact rotating_randperm_perm|].
  destruct (partitions_glue_to_data rotating_randperm rotating_randperm_perm
              sample_module None 1%nat) as (m' & g' & Hset & Hall & _).
  now exists m', g'.
Defined.

Lemma repeated_setup_invariant_witness :
  (forall n g, Permutation (fst (rotating_randperm n g)) (seq 0 n))
  /\ exists m g',
      run_setups rotating_randperm
        [None; Some "fit"%string; Some "test"%string] sample_module 1%nat
      = Ok (m, g')
      /\ RandomDataModule.batch_size m = 10%nat
      /\ Permutation (RandomDataModule.data m) sample_data
      /\ VectorDataset.__len__ (train_split m) = Ok 8%nat.
Proof.
  split; [exact rotating_randperm_perm|].
  destruct (repeated_setup_invariant rotating_randperm rotating_randperm_perm
              sample_hparams sample_data
              [None; Some "fit"%string; Some "test"%string] 1%nat)
    as (m & g' & Hrun & _ & Hbs & Hperm & Hrest).
  destruct Hrest as (_ & Htrain & _); [discriminate|].
  exists m, g'. repeat split; assumption.
Defined.

Lemma setup_twice_composes_witness :
  (forall n g, Permutation (fst (rotating_randperm n g)) (seq 0 n))
  /\ run_setups rotating_randperm [None; Some "fit"%string] sample_module 1%nat
     = RandomDataModule.setup (twice_randperm rotating_randperm)
         sample_module None 1%nat.
Proof.
  split; [exact rotating_randperm_perm|].
  exact (setup_twice_composes rotating_randperm rotating_randperm_perm
           sample_module None (Some "fit"%string) None 1%nat).
Defined.

Lemma partition_emptiness_witness :
  (forall n g, Permutation (fst (rotating_randperm n g)) (seq 0 n))
  /\ exists m' g' train_rows val_rows test_rows,
      RandomDataModule.setup rotating_randperm
        (RandomDataModule.__init__ sample_hparams [[7; 8]]%Z) None 0%nat
      = Ok (m', g')
      /\ VectorDataset.__len__ (train_split m') = Ok train_rows
      /\ VectorDataset.__len__ (val_split m') = Ok val_rows
      /\ VectorDataset.__len__ (test_split m') = Ok test_rows
      /\ train_rows = 0%nat /\ val_rows = 0%nat /\ test_rows <> 0%nat.
Proof.
  split; [exact rotating_randperm_perm|].
  destruct (partition_emptiness rotating_randperm rotating_randperm_perm
              (RandomDataModule.__init__ sample_hparams [[7; 8]]%Z)
              None 0%nat)
    as (m' & g' & tr & va & te & Hset & L1 & L2 & L3 & E1 & E2 & E3).
  cbn [RandomDataModule.__init__ RandomDataModule.data length] in E1, E2, E3.
  exists m', g', tr, va, te.
  repeat (split; [assumption|]).
  split; [apply E1; lia|]. split; [apply E2; lia|].
  intros H. apply E3 in H. discriminate H.
Defined.

Lemma partition_size_bounds_witness :
  (forall n g, Permutation (fst (rotating_randperm n g)) (seq 0 n))
  /\ exists m' g' train_rows val_rows test_rows,
      RandomDataModule.setup rotating_randperm sample_module None 1%nat
      = Ok (m', g')
      /\ VectorDataset.__len__ (train_split m') = Ok train_rows
      /\ VectorDataset.__len__ (val_split m') = Ok val_rows
      /\ VectorDataset.__len__ (test_split m') = Ok test_rows
      /\ (5 * train_rows <= 4 * 10 < 5 * train_rows + 5)%nat
      /\ (10 * val_rows <= 10 < 10 * val_rows + 10)%nat
      /\ (10 <= 10 * test_rows <= 10 + 14)%nat
      /\ (train_rows + val_rows + test_rows = 10)%nat.
Proof.
  split; [exact rotating_randperm_perm|].
  exact (partition_size_bounds rotating_randperm rotating_randperm_perm
           sample_module None 1%nat).
Defined.

Lemma setup_no_rows_witness :
  (forall n g, Permutation (fst (rotating_randperm n g)) (seq 0 n))
  /\ exists m' g',
      RandomDataModule.setup rotating_randperm
        (RandomDataModule.__init__ (A := Z) sample_hparams []) None 1%nat
      = Ok (m', g')
      /\ VectorDataset.__len__ (train_split m') = Ok 0%nat
      /\ RandomDataModule.train_dataloader m' = Raise ValueError.
Proof.
  split; [exact rotating_randperm_perm|].
  destruct (setup_no_rows rotating_randperm rotating_randperm_perm
              (A := Z) sample_hparams None 1%nat)
    as (m' & g' & Hset & Htr & _ & _ & Hlen & _ & Hload & _).
  exists m', g'. rewrite Htr. now repeat split.
Defined.

Lemma main_training_pairs_witness :
  (forall n g, Permutation (fst (rotating_randperm n g)) (seq 0 n))
  /\ exists dm g,
      main_data_module rotating_randperm Z.to_nat
        (fun g k => Z.of_nat (g + k)) Nat.add
        (fun _ _ _ i => Z.of_nat i) Z.opp Z.succ Z.add Z.mul 4%Z 1%Z
      = Ok (dm, g)
      /\ RandomDataModule.batch_size dm = 10%nat
      /\ VectorDataset.__len__ (train_split dm) = Ok 8%nat
      /\ VectorDataset.__len__ (val_split dm) = Ok 1%nat
      /\ VectorDataset.__len__ (test_split dm) = Ok 1%nat.
Proof.
  split; [exact rotating_randperm_perm|].
  destruct (main_training_pairs rotating_randperm rotating_randperm_perm
              Z.to_nat (fun g k => Z.of_nat (g + k)) Nat.add
              (fun _ _ _ i => Z.of_nat i) Z.opp Z.succ Z.add Z.mul 4%Z 1%Z)
    as (dm & g & Hdm & Hbs & L1 & L2 & L3 & _).
  exists dm, g. now repeat split.
Defined.
